(** * RAG tutorial pipeline (rag_tutorial.py): a shallow embedding

    The script is sequential glue around three collaborators: a PostgreSQL
    server with the pgvector extension, the Ollama embedding endpoint and the
    Ollama generation endpoint.  The Python functions [setup_database],
    [ingest_data], [run_rag_query] and [main] are embedded as computations in a
    state-and-exception monad over a [world] that holds the server's state,
    the connection's status and the logs of what was sent to each
    collaborator and written to the console.

    Strings are Stdlib strings; a character is its code point (0..255).
    Vector components are kept abstract ([scalar]), and so is the value of the
    [<=>] operator ([key], ordered by [key_leb]): only the order of distances
    matters to the script. *)

From Stdlib Require Import String Ascii List Bool Arith ZArith Lia.
From Stdlib Require Import Sorting.Sorted Sorting.Permutation.
From Stdlib Require Import DecimalString.
Import ListNotations.

Local Open Scope string_scope.
Local Open Scope list_scope.

Infix "+++" := String.append (right associativity, at level 60).

(** ** Python string operations used by the script *)

Module PyStr.

(** The line feed, written [\n] in the source. *)
Definition nl : string := String (ascii_of_nat 10) "".

(** [str.isspace] on one character: TAB..CR, FS..US, SPACE, NEL and NBSP are
    the white-space code points below 256. *)
Definition isspace (c : ascii) : bool :=
  let n := nat_of_ascii c in
  (Nat.leb 9 n && Nat.leb n 13) || (Nat.leb 28 n && Nat.leb n 32)
  || Nat.eqb n 133 || Nat.eqb n 160.

(** [s.split(sep)] for a one-character separator: every occurrence of the
    separator ends a fragment; the empty string yields one empty fragment. *)
Fixpoint split (sep : ascii) (s : string) : list string :=
  match s with
  | EmptyString => [EmptyString]
  | String c s' =>
      if Ascii.eqb c sep then EmptyString :: split sep s'
      else match split sep s' with
           | [] => [String c EmptyString]
           | fragment :: fragments => String c fragment :: fragments
           end
  end.

Fixpoint lstrip (s : string) : string :=
  match s with
  | EmptyString => EmptyString
  | String c s' => if isspace c then lstrip s' else s
  end.

Fixpoint rstrip (s : string) : string :=
  match s with
  | EmptyString => EmptyString
  | String c s' =>
      match rstrip s' with
      | EmptyString => if isspace c then EmptyString else String c EmptyString
      | r => String c r
      end
  end.

(** [s.strip()] *)
Definition strip (s : string) : string := lstrip (rstrip s).

(** Truth value of a string: non-empty. *)
Definition truthy (s : string) : bool :=
  match s with EmptyString => false | String _ _ => true end.

(** [sep.join(parts)] *)
Definition join (sep : string) (parts : list string) : string :=
  String.concat sep parts.

(** [s[:n]] *)
Definition take (n : nat) (s : string) : string := substring 0 n s.

(** [str(n)] for a non-negative integer. *)
Definition str_nat (n : nat) : string := NilEmpty.string_of_uint (Nat.to_uint n).

(** Every character of [s] is white space. *)
Fixpoint all_space (s : string) : bool :=
  match s with
  | EmptyString => true
  | String c s' => isspace c && all_space s'
  end.

(** [s] contains the character [c]. *)
Fixpoint mem (c : ascii) (s : string) : bool :=
  match s with
  | EmptyString => false
  | String d s' => Ascii.eqb d c || mem c s'
  end.

(** First and last character, when there is one. *)
Definition first_char (s : string) : option ascii :=
  match s with EmptyString => None | String c _ => Some c end.

Fixpoint last_char (s : string) : option ascii :=
  match s with
  | EmptyString => None
  | String c EmptyString => Some c
  | String _ s' => last_char s'
  end.

(** [s] neither starts nor ends with white space. *)
Definition trimmed (s : string) : bool :=
  match first_char s, last_char s with
  | Some a, Some b => negb (isspace a) && negb (isspace b)
  | _, _ => true
  end.

End PyStr.

(** ** Configuration (module-level constants of the script) *)

Definition GENERATION_MODEL : string := "gemma3:270m".
Definition EMBEDDING_MODEL : string := "nomic-embed-text".
Definition VECTOR_DIMENSION : nat := 768.

(** The sample document of [ingest_data] (a triple-quoted literal: it starts
    and ends with a line break, and every line is indented by four spaces). *)
Definition document : string :=
  PyStr.nl +++
  "    A llama is a domesticated South American camelid, widely used as a meat and pack animal by Andean cultures since the pre-Columbian era." +++ PyStr.nl +++
  "    Llamas are social animals and live in herds. The largest are the guanacos, which can weigh up to 300 pounds." +++ PyStr.nl +++
  "    Llamas can be quite calm and cooperative if they are raised correctly, which makes them great companions for people in the mountains." +++ PyStr.nl +++
  "    A female llama gives birth standing up. The gestation period for a llama is about 11.5 months." +++ PyStr.nl +++
  "    The llamas have long, thick necks, a small head with a cleft upper lip, and long ears." +++ PyStr.nl +++
  "    ".

(** Lines 150-151 of [ingest_data]:
    [chunks = document.split('.')] and
    [chunks = [chunk.strip() for chunk in chunks if chunk.strip()]]. *)
Definition chunk_document (document : string) : list string :=
  let chunks := PyStr.split "."%char document in
  map PyStr.strip (filter (fun chunk => PyStr.truthy (PyStr.strip chunk)) chunks).

(** ** Exceptions *)

(** The exception classes the script can meet.  [OperationalError],
    [DataException] and [ProgrammingError] are psycopg's; [RequestError] and
    [ResponseError] are Ollama's; [OtherException] stands for any other
    subclass of [Exception]. *)
Inductive exn_class :=
| OperationalError | DataException | ProgrammingError
| RequestError | ResponseError | OtherException.

(** An exception: its class and [str(e)]. *)
Record exn := mkExn { exn_kind : exn_class; exn_text : string }.

Inductive result (A : Type) :=
| Return (a : A)
| Raise (e : exn).
Arguments Return {A} a.
Arguments Raise {A} e.

(** The connection object returned by [psycopg.connect]; the script opens at
    most one, and its status lives in the world. *)
Inductive connection := Conn.

Inductive conn_status := NotConnected | Open | Closed.

(** ** The world: database server, connection, services' logs, console *)

Section Pipeline.

Context {scalar : Type} {key : Type}.

(** A Chunk Record: a row of [documents (id SERIAL PRIMARY KEY, content TEXT,
    embedding VECTOR(n))]. *)
Record row := mkRow { row_id : Z; content : string; embedding : list scalar }.

(** The table [documents]: the width declared for its vector column, its
    rows in insertion order, and the next value of its id sequence. *)
Record table := mkTable { vector_dim : nat; rows : list row; next_id : Z }.

(** The SQL statements of the script. *)
Inductive statement :=
| SelectVectorExtension
| DropDocuments
| CreateDocuments (dim : nat)
| InsertDocument (chunk : string) (embedding : list scalar)
| SelectNearest (query_embedding : list scalar) (limit : nat).

Record world := mkWorld {
  pg_unreachable : option string;  (* [Some details]: connections are refused *)
  pg_vector_extension : bool;      (* a row of pg_extension named 'vector' *)
  pg_documents : option table;     (* the table [documents], when it exists *)
  conn_state : conn_status;
  pg_log : list statement;         (* statements executed, oldest first *)
  embed_log : list string;         (* prompts sent to the embedding endpoint *)
  generate_log : list string;      (* prompts sent to the generation endpoint *)
  stdout : list string             (* text written to the console, in order *)
}.

Definition set_documents (t : option table) (w : world) : world :=
  mkWorld (pg_unreachable w) (pg_vector_extension w) t (conn_state w)
          (pg_log w) (embed_log w) (generate_log w) (stdout w).

Definition set_conn_state (c : conn_status) (w : world) : world :=
  mkWorld (pg_unreachable w) (pg_vector_extension w) (pg_documents w) c
          (pg_log w) (embed_log w) (generate_log w) (stdout w).

Definition log_statement (q : statement) (w : world) : world :=
  mkWorld (pg_unreachable w) (pg_vector_extension w) (pg_documents w)
          (conn_state w) (pg_log w ++ [q]) (embed_log w) (generate_log w)
          (stdout w).

Definition log_embed (prompt : string) (w : world) : world :=
  mkWorld (pg_unreachable w) (pg_vector_extension w) (pg_documents w)
          (conn_state w) (pg_log w) (embed_log w ++ [prompt]) (generate_log w)
          (stdout w).

Definition log_generate (prompt : string) (w : world) : world :=
  mkWorld (pg_unreachable w) (pg_vector_extension w) (pg_documents w)
          (conn_state w) (pg_log w) (embed_log w) (generate_log w ++ [prompt])
          (stdout w).

Definition write_stdout (text : string) (w : world) : world :=
  mkWorld (pg_unreachable w) (pg_vector_extension w) (pg_documents w)
          (conn_state w) (pg_log w) (embed_log w) (generate_log w)
          (stdout w ++ [text]).

(** ** The monad of the script: state and exceptions *)

Definition M (A : Type) : Type := world -> result A * world.

Definition ret {A} (a : A) : M A := fun w => (Return a, w).

Definition bind {A B} (m : M A) (k : A -> M B) : M B :=
  fun w => match m w with
           | (Return a, w') => k a w'
           | (Raise e, w') => (Raise e, w')
           end.

Definition raise {A} (e : exn) : M A := fun w => (Raise e, w).

Definition modify (f : world -> world) : M unit := fun w => (Return tt, f w).

(** [try: body except ...]: the handler picks the clause that matches the
    exception, [None] when no clause does and the exception propagates. *)
Definition try_except {A} (body : M A) (handler : exn -> option (M A)) : M A :=
  fun w => match body w with
           | (Return a, w') => (Return a, w')
           | (Raise e, w') =>
               match handler e with
               | Some clause => clause w'
               | None => (Raise e, w')
               end
           end.

Notation "x <- m ;; k" := (bind m (fun x => k))
  (at level 100, m at next level, right associativity).
Notation "m ;; k" := (bind m (fun _ => k))
  (at level 100, right associativity).

(** [print(text)] and [print(text, end=e)] *)
Definition print (text : string) : M unit := modify (write_stdout (text +++ PyStr.nl)).
Definition print_end (text e : string) : M unit := modify (write_stdout (text +++ e)).

(** [time.sleep(seconds)]: elapsed time is not part of the world. *)
Definition sleep (seconds : nat) : M unit := ret tt.

(** ** The database server as the script uses it *)

(** pgvector accepts vectors of 1 to 16000 components. *)
Definition VECTOR_MAX_DIM : nat := 16 * 1000.

Definition valid_vector (v : list scalar) : bool :=
  Nat.leb 1 (length v) && Nat.leb (length v) VECTOR_MAX_DIM.

(** [psycopg.connect(...)]: an [OperationalError] when the server cannot be
    reached, an open connection otherwise. *)
Definition connect : M connection :=
  fun w => match pg_unreachable w with
           | Some details => (Raise (mkExn OperationalError details), w)
           | None => (Return Conn, set_conn_state Open w)
           end.

(** [conn.close()] *)
Definition close (conn : connection) : M unit := modify (set_conn_state Closed).

(** Using a connection that is not open raises [OperationalError]. *)
Definition check_connection (conn : connection) : M unit :=
  fun w => match conn_state w with
           | Open => (Return tt, w)
           | _ => (Raise (mkExn OperationalError "the connection is closed"), w)
           end.

(** [with conn.cursor() as cur:] *)
Definition cursor (conn : connection) : M unit := check_connection conn.

(** [cur.execute(q)] sends the statement over an open connection. *)
Definition send (conn : connection) (q : statement) : M unit :=
  check_connection conn ;; modify (log_statement q).

(** [cur.execute("SELECT 1 FROM pg_extension WHERE extname = 'vector';")]
    followed by [cur.fetchone()]: the row [(1,)] or [None]. *)
Definition select_vector_extension (conn : connection) : M (option Z) :=
  send conn SelectVectorExtension ;;
  fun w => (Return (if pg_vector_extension w then Some 1%Z else None), w).

(** [cur.execute("DROP TABLE IF EXISTS documents;")] *)
Definition drop_documents (conn : connection) : M unit :=
  send conn DropDocuments ;; modify (set_documents None).

(** [cur.execute("CREATE TABLE documents (id SERIAL PRIMARY KEY, content TEXT,
    embedding VECTOR(dim));")]: the type [vector] exists only with the
    extension, and the table must not exist yet. *)
Definition create_documents (conn : connection) (dim : nat) : M unit :=
  send conn (CreateDocuments dim) ;;
  fun w =>
    if negb (pg_vector_extension w) then
      (Raise (mkExn ProgrammingError "type vector does not exist"), w)
    else match pg_documents w with
         | Some _ => (Raise (mkExn ProgrammingError "relation documents already exists"), w)
         | None => (Return tt, set_documents (Some (mkTable dim [] 1%Z)) w)
         end.

(** [cur.execute("INSERT INTO documents (content, embedding) VALUES (%s, %s);",
    (chunk, embedding))].  The connection is in autocommit mode, so an
    accepted row is committed at once.  pgvector refuses a value whose width
    is not the column's: then nothing is written. *)
Definition insert_document (conn : connection) (chunk : string)
           (v : list scalar) : M unit :=
  send conn (InsertDocument chunk v) ;;
  fun w =>
    match pg_documents w with
    | None => (Raise (mkExn ProgrammingError "relation documents does not exist"), w)
    | Some t =>
        if valid_vector v && Nat.eqb (length v) (vector_dim t) then
          (Return tt,
           set_documents
             (Some (mkTable (vector_dim t)
                            (rows t ++ [mkRow (next_id t) chunk v])
                            (next_id t + 1)%Z)) w)
        else (Raise (mkExn DataException "expected another number of dimensions"), w)
    end.

(** The rows that inserting [chunks] with the vectors [vs] adds, the first
    with identifier [id], and the statements that add them. *)
Fixpoint chunk_records (id : Z) (chunks : list string) (vs : list (list scalar))
  : list row :=
  match chunks, vs with
  | chunk :: chunks', v :: vs' => mkRow id chunk v :: chunk_records (id + 1) chunks' vs'
  | _, _ => []
  end.

Fixpoint chunk_inserts (chunks : list string) (vs : list (list scalar))
  : list statement :=
  match chunks, vs with
  | chunk :: chunks', v :: vs' => InsertDocument chunk v :: chunk_inserts chunks' vs'
  | _, _ => []
  end.

(** The value of [embedding <=> query] (cosine distance) and the order in
    which PostgreSQL sorts such values. *)
Variable cosine_distance : list scalar -> list scalar -> key.
Variable key_leb : key -> key -> bool.

Definition closer (q : list scalar) (r1 r2 : row) : bool :=
  key_leb (cosine_distance (embedding r1) q) (cosine_distance (embedding r2) q).

(** [r1] is at most as far from [q] as [r2]. *)
Definition by_distance (q : list scalar) (r1 r2 : row) : Prop :=
  closer q r1 r2 = true.

(** [ORDER BY]: rows in ascending order of the sort key (an insertion sort;
    rows with equal keys keep their stored order). *)
Fixpoint insert_by (le : row -> row -> bool) (r : row) (sorted : list row) : list row :=
  match sorted with
  | [] => [r]
  | r' :: rest => if le r r' then r :: sorted else r' :: insert_by le r rest
  end.

Definition order_by (le : row -> row -> bool) (l : list row) : list row :=
  fold_right (insert_by le) [] l.

(** [ORDER BY embedding <=> q LIMIT limit] over the rows of the table. *)
Definition nearest (q : list scalar) (limit : nat) (l : list row) : list row :=
  firstn limit (order_by (closer q) l).

(** [cur.execute("SELECT content FROM documents ORDER BY embedding <=>
    %s::vector LIMIT 3;", (vector_str,))] followed by
    [[row[0] for row in cur.fetchall()]].  The text of the vector must be a
    valid vector, and [<=>] refuses operands of different widths. *)
Definition select_nearest (conn : connection) (q : list scalar) (limit : nat)
  : M (list string) :=
  send conn (SelectNearest q limit) ;;
  fun w =>
    match pg_documents w with
    | None => (Raise (mkExn ProgrammingError "relation documents does not exist"), w)
    | Some t =>
        if negb (valid_vector q) then
          (Raise (mkExn DataException "malformed vector literal"), w)
        else if forallb (fun r => Nat.eqb (length (embedding r)) (length q)) (rows t) then
          (Return (map content (nearest q limit (rows t))), w)
        else (Raise (mkExn DataException "different vector dimensions"), w)
    end.

(** ** The Ollama services *)

Inductive embed_reply :=
| Embedding (v : list scalar)   (* [response['embedding']] *)
| EmbedRaise (e : exn).

(** A streamed generation: the call may raise; otherwise the stream yields
    its fragments ([chunk['response']]) and then ends, or raises. *)
Inductive generate_reply :=
| GenerateRaise (e : exn)
| Stream (fragments : list string) (failure : option exn).

(** [ollama_embeddings n model prompt]: the reply to the request made after
    [n] earlier embedding requests.  [ollama_generate model prompt]: the reply
    of the generation endpoint. *)
Variable ollama_embeddings : nat -> string -> string -> embed_reply.
Variable ollama_generate : string -> string -> generate_reply.

(** The embedding requests number [n], [n+1], ... made for [prompts] are
    answered with the vectors [vs]. *)
Inductive embedded_as : nat -> list string -> list (list scalar) -> Prop :=
| embedded_nil n : embedded_as n [] []
| embedded_cons n prompt prompts v vs :
    ollama_embeddings n EMBEDDING_MODEL prompt = Embedding v ->
    embedded_as (S n) prompts vs ->
    embedded_as n (prompt :: prompts) (v :: vs).

(** [client.embeddings(model=..., prompt=...)['embedding']] *)
Definition embeddings (model prompt : string) : M (list scalar) :=
  fun w =>
    let w' := log_embed prompt w in
    match ollama_embeddings (length (embed_log w)) model prompt with
    | Embedding v => (Return v, w')
    | EmbedRaise e => (Raise e, w')
    end.

(** [client.generate(model=..., prompt=..., stream=True)] *)
Definition generate (model prompt : string) : M (list string * option exn) :=
  fun w =>
    let w' := log_generate prompt w in
    match ollama_generate model prompt with
    | GenerateRaise e => (Raise e, w')
    | Stream fragments failure => (Return (fragments, failure), w')
    end.

(** ** Step 1: [setup_database] *)

Definition setup_database : M (option connection) :=
  try_except
    (print (PyStr.nl +++ "--- Connecting to PostgreSQL database ---") ;;
     conn <- connect ;;
     print "Connection successful!" ;;
     cursor conn ;;
     found <- select_vector_extension conn ;;
     match found with
     | None =>
         print "pgvector extension not found. Please ensure your Docker image supports it." ;;
         print "This script uses the 'ankane/pgvector' Docker image which has it pre-installed." ;;
         print "If you're running a different PostgreSQL image, you may need to install it manually." ;;
         ret None
     | Some _ =>
         print "pgvector extension is installed." ;;
         drop_documents conn ;;
         create_documents conn VECTOR_DIMENSION ;;
         print ("Table 'documents' created successfully with a VECTOR("
                  +++ PyStr.str_nat VECTOR_DIMENSION +++ ") column.") ;;
         ret (Some conn)
     end)
    (fun e =>
       match exn_kind e with
       | OperationalError =>
           Some (print (PyStr.nl +++ "Error: Could not connect to PostgreSQL. Please ensure the Docker container is running and accessible.") ;;
                 print ("Details: " +++ exn_text e) ;;
                 ret None)
       | _ => None
       end).

(** ** Step 2: [ingest_data] *)

(** The two [except] clauses of the loop body; between them they catch every
    exception, and both [return False]. *)
Definition ingest_handler (e : exn) : option (M bool) :=
  match exn_kind e with
  | RequestError | ResponseError =>
      Some (print (PyStr.nl +++ "Error: Could not connect to Ollama. Please ensure the Docker container is running and the model is pulled.") ;;
            print ("Details: " +++ exn_text e) ;;
            ret false)
  | _ =>
      Some (print ("An unexpected error occurred: " +++ exn_text e) ;;
            ret false)
  end.

(** The body of [for chunk in chunks:]; [false] is the [return False] of an
    [except] clause. *)
Definition ingest_chunk (conn : connection) (chunk : string) : M bool :=
  print ("Processing chunk: '" +++ PyStr.take 50 chunk +++ "...'") ;;
  try_except
    (embedding <- embeddings EMBEDDING_MODEL chunk ;;
     insert_document conn chunk embedding ;;
     print ("Inserted chunk into database. Vector dimension: "
              +++ PyStr.str_nat (length embedding)) ;;
     ret true)
    ingest_handler.

(** The loop: it stops at the first chunk whose body returned. *)
Fixpoint ingest_chunks (conn : connection) (chunks : list string) : M bool :=
  match chunks with
  | [] => ret true
  | chunk :: rest =>
      ok <- ingest_chunk conn chunk ;;
      if ok then ingest_chunks conn rest else ret false
  end.

(** [ingest_data] with its document as a parameter. *)
Definition ingest_document (conn : connection) (document : string) : M bool :=
  print (PyStr.nl +++ "--- Ingesting sample data and creating embeddings ---") ;;
  let chunks := chunk_document document in
  cursor conn ;;
  ok <- ingest_chunks conn chunks ;;
  if ok then
    print (PyStr.nl +++ "Data ingestion complete.") ;;
    ret true
  else ret false.

Definition ingest_data (conn : connection) : M bool :=
  ingest_document conn document.

(** ** Step 3: [run_rag_query] *)

(** The prompt handed to the generation model. *)
Definition rag_prompt (context user_query : string) : string :=
  "Based on the provided context, answer the question clearly and helpfully. Use only information from the context."
    +++ PyStr.nl +++ PyStr.nl +++ "Context: " +++ context
    +++ PyStr.nl +++ PyStr.nl +++ "Question: " +++ user_query
    +++ PyStr.nl +++ PyStr.nl +++ "Answer:".

(** Lines 198-221: embed the question, then select the nearest rows. *)
Definition retrieve_docs (conn : connection) (user_query : string) : M (list string) :=
  query_embedding <- embeddings EMBEDDING_MODEL user_query ;;
  cursor conn ;;
  select_nearest conn query_embedding 3.

(** [for i, doc in enumerate(retrieved_docs): print(f"Chunk {i+1}: {doc}")] *)
Fixpoint print_docs (i : nat) (docs : list string) : M unit :=
  match docs with
  | [] => ret tt
  | doc :: rest =>
      print ("Chunk " +++ PyStr.str_nat (i + 1) +++ ": " +++ doc) ;;
      print_docs (S i) rest
  end.

(** [for chunk in stream:] accumulating [full_response]. *)
Fixpoint consume (fragments : list string) (failure : option exn)
         (full_response : string) : M string :=
  match fragments with
  | [] => match failure with
          | None => ret full_response
          | Some e => raise e
          end
  | response_text :: rest =>
      let full_response := full_response +++ response_text in
      print_end response_text "" ;;
      consume rest failure full_response
  end.

Definition query_handler (e : exn) : option (M (option string)) :=
  match exn_kind e with
  | RequestError | ResponseError =>
      Some (print (PyStr.nl +++ "Error: Could not connect to Ollama. Please ensure the Docker container is running and the model is pulled.") ;;
            print ("Details: " +++ exn_text e) ;;
            ret None)
  | _ =>
      Some (print ("An unexpected error occurred during the RAG process: " +++ exn_text e) ;;
            ret None)
  end.

Definition run_rag_query (conn : connection) (user_query : string) : M (option string) :=
  print (PyStr.nl +++ "--- Processing user query: '" +++ user_query +++ "' ---") ;;
  try_except
    (retrieved_docs <- retrieve_docs conn user_query ;;
     print (PyStr.nl +++ "--- Retrieved the following relevant chunks from the database ---") ;;
     print_docs 0 retrieved_docs ;;
     let context := PyStr.join " " retrieved_docs in
     let prompt := rag_prompt context user_query in
     print (PyStr.nl +++ "--- Generating response with Gemma 3:270M ---") ;;
     stream <- generate GENERATION_MODEL prompt ;;
     print "Response:" ;;
     full_response <- consume (fst stream) (snd stream) "" ;;
     print (PyStr.nl +++ PyStr.nl +++ "--- RAG process complete ---") ;;
     ret (Some full_response))
    query_handler.

(** ** The driver *)

Definition user_question : string := "What makes a llama a good companion?".

(** [main] with the document and the question as parameters. *)
Definition run_pipeline (document user_question : string) : M unit :=
  print "Welcome to the Interactive RAG Tutorial!" ;;
  print "This script will demonstrate how to build a RAG system using local tools." ;;
  conn <- setup_database ;;
  match conn with
  | None => ret tt
  | Some conn =>
      ingestion_success <- ingest_document conn document ;;
      if negb ingestion_success then
        close conn ;;
        ret tt
      else
        sleep 2 ;;
        run_rag_query conn user_question ;;
        close conn
  end.

Definition main : M unit := run_pipeline document user_question.

(** * Properties *)

(** ** Splitting and trimming *)

Lemma split_nonempty (sep : ascii) (s : string) : PyStr.split sep s <> [].
Proof.
  destruct s as [|c s]; simpl; [discriminate|].
  destruct (Ascii.eqb c sep); [discriminate|].
  destruct (PyStr.split sep s); discriminate.
Qed.

Lemma concat_cons_nonempty (sep x : string) (l : list string) :
  l <> [] -> String.concat sep (x :: l) = x +++ sep +++ String.concat sep l.
Proof. destruct l; [congruence | reflexivity]. Qed.

(** Joining the fragments with the separator gives the string back. *)
Lemma split_join (sep : ascii) (s : string) :
  PyStr.join (String sep "") (PyStr.split sep s) = s.
Proof.
  unfold PyStr.join.
  induction s as [|c s IH]; [reflexivity|].
  simpl PyStr.split. destruct (Ascii.eqb c sep) eqn:E.
  - apply Ascii.eqb_eq in E. subst c.
    rewrite concat_cons_nonempty by apply split_nonempty.
    simpl. now rewrite IH.
  - pose proof (split_nonempty sep s) as Hne.
    destruct (PyStr.split sep s) as [|f fs]; [congruence|].
    destruct fs as [|g fs].
    + simpl in *. now rewrite IH.
    + change (String.concat (String sep "") (String c f :: g :: fs))
        with (String c (String.concat (String sep "") (f :: g :: fs))).
      now rewrite IH.
Qed.

(** No fragment contains the separator. *)
Lemma split_no_sep (sep : ascii) (s : string) :
  Forall (fun fragment => PyStr.mem sep fragment = false) (PyStr.split sep s).
Proof.
  induction s as [|c s IH]; simpl.
  - repeat constructor.
  - destruct (Ascii.eqb c sep) eqn:E.
    + constructor; [reflexivity | assumption].
    + destruct (PyStr.split sep s) as [|f fs]; inversion IH; subst.
      * repeat constructor. simpl. now rewrite E.
      * constructor; [|assumption]. simpl. now rewrite E.
Qed.

Lemma lstrip_decompose (s : string) :
  exists l, s = l +++ PyStr.lstrip s /\ PyStr.all_space l = true.
Proof.
  induction s as [|c s [l [IH1 IH2]]]; simpl.
  - now exists "".
  - destruct (PyStr.isspace c) eqn:E.
    + exists (String c l). simpl. rewrite E, IH2. now rewrite <- IH1.
    + now exists "".
Qed.

Lemma rstrip_decompose (s : string) :
  exists r, s = PyStr.rstrip s +++ r /\ PyStr.all_space r = true.
Proof.
  induction s as [|c s [r [IH1 IH2]]]; simpl.
  - now exists "".
  - destruct (PyStr.rstrip s) as [|d t] eqn:R.
    + destruct (PyStr.isspace c) eqn:E.
      * exists (String c r). simpl in *. rewrite E, IH2. now rewrite <- IH1.
      * exists r. simpl in *. now subst r.
    + exists r. simpl in *. now rewrite <- IH1.
Qed.

Lemma first_char_lstrip (s : string) (a : ascii) :
  PyStr.first_char (PyStr.lstrip s) = Some a -> PyStr.isspace a = false.
Proof.
  induction s as [|c s IH]; simpl; [discriminate|].
  destruct (PyStr.isspace c) eqn:E; [assumption|].
  simpl. now intros [= <-].
Qed.

Lemma last_char_cons (c : ascii) (s : string) :
  s <> "" -> PyStr.last_char (String c s) = PyStr.last_char s.
Proof. destruct s; [congruence | reflexivity]. Qed.

Lemma last_char_lstrip (s : string) (b : ascii) :
  PyStr.last_char (PyStr.lstrip s) = Some b -> PyStr.last_char s = Some b.
Proof.
  induction s as [|c s IH]; simpl PyStr.lstrip; [trivial|].
  destruct (PyStr.isspace c); [|trivial].
  intros H. destruct s as [|d s]; [discriminate H|].
  rewrite last_char_cons by discriminate. auto.
Qed.

Lemma last_char_rstrip (s : string) (b : ascii) :
  PyStr.last_char (PyStr.rstrip s) = Some b -> PyStr.isspace b = false.
Proof.
  induction s as [|c s IH]; simpl PyStr.rstrip; [discriminate|].
  destruct (PyStr.rstrip s) as [|d t] eqn:R.
  - destruct (PyStr.isspace c) eqn:E; [discriminate|].
    simpl. now intros [= <-].
  - rewrite last_char_cons by discriminate. assumption.
Qed.

(** A stripped string neither starts nor ends with white space. *)
Lemma strip_trimmed (s : string) : PyStr.trimmed (PyStr.strip s) = true.
Proof.
  unfold PyStr.trimmed, PyStr.strip.
  destruct (PyStr.first_char (PyStr.lstrip (PyStr.rstrip s))) as [a|] eqn:Ha; [|reflexivity].
  destruct (PyStr.last_char (PyStr.lstrip (PyStr.rstrip s))) as [b|] eqn:Hb; [|reflexivity].
  apply first_char_lstrip in Ha. apply last_char_lstrip, last_char_rstrip in Hb.
  now rewrite Ha, Hb.
Qed.

(** Stripping removes white space, and only white space, at both ends. *)
Lemma strip_decompose (s : string) :
  exists l r, s = l +++ PyStr.strip s +++ r
              /\ PyStr.all_space l = true /\ PyStr.all_space r = true.
Proof.
  destruct (rstrip_decompose s) as [r [Hr1 Hr2]].
  destruct (lstrip_decompose (PyStr.rstrip s)) as [l [Hl1 Hl2]].
  exists l, r. unfold PyStr.strip. repeat split; try assumption.
  rewrite Hr1 at 1. rewrite Hl1 at 1.
  clear. induction l as [|c l IH]; simpl; [reflexivity | now rewrite IH].
Qed.

(** What [chunk_document] keeps: the stripped, non-empty fragments. *)
Lemma chunk_document_chunks (document : string) :
  Forall (fun chunk => chunk <> "" /\ PyStr.trimmed chunk = true
                       /\ PyStr.mem "."%char chunk = false
                       /\ exists fragment l r,
                            In fragment (PyStr.split "."%char document)
                            /\ fragment = l +++ chunk +++ r
                            /\ PyStr.all_space l = true
                            /\ PyStr.all_space r = true)
         (chunk_document document).
Proof.
  unfold chunk_document. apply Forall_forall. intros chunk Hin.
  apply in_map_iff in Hin. destruct Hin as [fragment [<- Hin]].
  apply filter_In in Hin. destruct Hin as [Hin Hne].
  split; [|split; [|split]].
  - intros E. rewrite E in Hne. discriminate.
  - apply strip_trimmed.
  - pose proof (split_no_sep "."%char document) as Hno.
    rewrite Forall_forall in Hno. specialize (Hno _ Hin).
    destruct (strip_decompose fragment) as [l [r [Hs _]]].
    rewrite Hs in Hno. clear -Hno.
    induction l as [|c l IH]; simpl in Hno.
    + induction (PyStr.strip fragment) as [|d t IHt]; [reflexivity|].
      simpl in *. apply orb_false_iff in Hno. destruct Hno as [-> Hno]. auto.
    + apply orb_false_iff in Hno. destruct Hno as [_ Hno]. auto.
  - destruct (strip_decompose fragment) as [l [r [Hs [Hl Hr]]]].
    exists fragment, l, r. auto.
Qed.

(** ** Reasoning about computations

    [triple P m Q E]: run from a world satisfying [P], the computation [m]
    either returns [a] in a world satisfying [Q a], or raises [e] in a world
    satisfying [E e]. *)

Definition triple {A} (P : world -> Prop) (m : M A)
           (Q : A -> world -> Prop) (E : exn -> world -> Prop) : Prop :=
  forall w, P w ->
    match m w with
    | (Return a, w') => Q a w'
    | (Raise e, w') => E e w'
    end.

(** [m] keeps [I], whether it returns or raises. *)
Definition keeps {A} (I : world -> Prop) (m : M A) : Prop :=
  triple I m (fun _ => I) (fun _ => I).

(** [m] keeps [I] and never raises. *)
Definition returns_keeping {A} (I : world -> Prop) (m : M A) : Prop :=
  triple I m (fun _ => I) (fun _ _ => False).

Lemma triple_ret {A} (P : world -> Prop) (a : A) Q E :
  (forall w, P w -> Q a w) -> triple P (ret a) Q E.
Proof. intros H w HP. simpl. auto. Qed.

Lemma triple_raise {A} (P : world -> Prop) (e : exn) (Q : A -> world -> Prop) E :
  (forall w, P w -> E e w) -> triple P (raise e) Q E.
Proof. intros H w HP. simpl. auto. Qed.

Lemma triple_modify (P : world -> Prop) (f : world -> world) Q E :
  (forall w, P w -> Q tt (f w)) -> triple P (modify f) Q E.
Proof. intros H w HP. simpl. auto. Qed.

Lemma triple_bind {A B} (P : world -> Prop) (m : M A) (k : A -> M B) R Q E :
  triple P m R E -> (forall a, triple (R a) (k a) Q E) ->
  triple P (bind m k) Q E.
Proof.
  intros Hm Hk w HP. unfold bind. specialize (Hm w HP).
  destruct (m w) as [[a|e] w']; [now apply Hk | assumption].
Qed.

Lemma triple_try_except {A} (P : world -> Prop) (body : M A) handler Q E' E :
  triple P body Q E' ->
  (forall e, match handler e with
             | Some clause => triple (E' e) clause Q E
             | None => forall w, E' e w -> E e w
             end) ->
  triple P (try_except body handler) Q E.
Proof.
  intros Hb Hh w HP. unfold try_except. specialize (Hb w HP).
  destruct (body w) as [[a|e] w']; [assumption|].
  specialize (Hh e). destruct (handler e); [now apply Hh | auto].
Qed.

Lemma triple_weaken {A} (P P' : world -> Prop) (m : M A)
      (Q Q' : A -> world -> Prop) (E E' : exn -> world -> Prop) :
  triple P' m Q' E' ->
  (forall w, P w -> P' w) ->
  (forall a w, Q' a w -> Q a w) ->
  (forall e w, E' e w -> E e w) ->
  triple P m Q E.
Proof.
  intros Hm HP HQ HE w Hw. specialize (Hm w (HP w Hw)).
  destruct (m w) as [[a|e] w']; auto.
Qed.

Lemma returns_keeping_keeps {A} (I : world -> Prop) (m : M A) :
  returns_keeping I m -> keeps I m.
Proof. intros H. eapply triple_weaken; eauto. intros e w []. Qed.

(** Invariants that do not look at the logs or the console. *)
Record log_blind (I : world -> Prop) : Prop := {
  blind_stdout : forall text w, I w -> I (write_stdout text w);
  blind_statement : forall q w, I w -> I (log_statement q w);
  blind_embed : forall prompt w, I w -> I (log_embed prompt w);
  blind_generate : forall prompt w, I w -> I (log_generate prompt w)
}.

Section Invariant.

Variable I : world -> Prop.
Hypothesis I_blind : log_blind I.

Lemma print_keeps (text : string) : returns_keeping I (print text).
Proof. apply triple_modify. intros. now apply blind_stdout. Qed.

Lemma print_end_keeps (text e : string) : returns_keeping I (print_end text e).
Proof. apply triple_modify. intros. now apply blind_stdout. Qed.

Lemma check_connection_keeps (conn : connection) : keeps I (check_connection conn).
Proof. intros w Hw. unfold check_connection. destruct (conn_state w); assumption. Qed.

Lemma send_keeps (conn : connection) (q : statement) : keeps I (send conn q).
Proof.
  eapply triple_bind; [apply check_connection_keeps|].
  intros ?. apply triple_modify. intros. now apply blind_statement.
Qed.

Lemma embeddings_keeps (model prompt : string) : keeps I (embeddings model prompt).
Proof.
  intros w Hw. unfold embeddings.
  destruct (ollama_embeddings _ _ _); now apply blind_embed.
Qed.

Lemma generate_keeps (model prompt : string) : keeps I (generate model prompt).
Proof.
  intros w Hw. unfold generate.
  destruct (ollama_generate _ _); now apply blind_generate.
Qed.

Lemma select_vector_extension_keeps (conn : connection) :
  keeps I (select_vector_extension conn).
Proof.
  eapply triple_bind; [apply send_keeps|]. intros _ w Hw. exact Hw.
Qed.

Lemma select_nearest_keeps (conn : connection) (q : list scalar) (limit : nat) :
  keeps I (select_nearest conn q limit).
Proof.
  eapply triple_bind; [apply send_keeps|]. intros _ w Hw.
  destruct (pg_documents w); [|assumption].
  destruct (negb (valid_vector q)); [assumption|].
  destruct (forallb _ _); assumption.
Qed.

Lemma print_docs_keeps (docs : list string) (i : nat) :
  returns_keeping I (print_docs i docs).
Proof.
  revert i. induction docs as [|doc rest IH]; intros i; simpl.
  - now apply triple_ret.
  - eapply triple_bind; [apply print_keeps | intros ?; apply IH].
Qed.

Lemma consume_keeps (fragments : list string) (failure : option exn) (acc : string) :
  keeps I (consume fragments failure acc).
Proof.
  revert acc. induction fragments as [|f rest IH]; intros acc; simpl.
  - destruct failure; [now apply triple_raise | now apply triple_ret].
  - eapply triple_bind; [apply returns_keeping_keeps, print_end_keeps|].
    intros ?. apply IH.
Qed.

(** The body of a loop iteration keeps [I] as soon as the insertion does;
    its handlers catch everything, so it always returns. *)
Lemma ingest_chunk_keeps (conn : connection) (chunk : string) :
  (forall v, keeps I (insert_document conn chunk v)) ->
  returns_keeping I (ingest_chunk conn chunk).
Proof.
  intros Hins. unfold ingest_chunk.
  eapply triple_bind; [apply print_keeps|]. intros ?.
  eapply triple_try_except with (E' := fun _ => I).
  - eapply triple_bind; [apply embeddings_keeps|]. intros v.
    eapply triple_bind; [apply Hins|]. intros ?.
    eapply triple_bind; [apply returns_keeping_keeps, print_keeps|]. intros ?.
    now apply triple_ret.
  - intros e. unfold ingest_handler.
    destruct (exn_kind e);
      (eapply triple_bind; [apply print_keeps|]; intros ?;
       eapply triple_bind; [apply print_keeps|]; intros ?; now apply triple_ret)
      || (eapply triple_bind; [apply print_keeps|]; intros ?; now apply triple_ret).
Qed.

Lemma ingest_chunks_keeps (conn : connection) (chunks : list string) :
  (forall chunk v, keeps I (insert_document conn chunk v)) ->
  returns_keeping I (ingest_chunks conn chunks).
Proof.
  intros Hins. induction chunks as [|chunk rest IH]; simpl.
  - now apply triple_ret.
  - eapply triple_bind; [apply ingest_chunk_keeps, Hins|].
    intros [|]; [apply IH | now apply triple_ret].
Qed.

(** [ingest_data] raises only when [conn.cursor()] does. *)
Lemma ingest_document_keeps (conn : connection) (document : string) :
  (forall chunk v, keeps I (insert_document conn chunk v)) ->
  keeps I (ingest_document conn document).
Proof.
  intros Hins. unfold ingest_document.
  eapply triple_bind; [apply returns_keeping_keeps, print_keeps|]. intros ?.
  eapply triple_bind; [apply check_connection_keeps|]. intros ?.
  eapply triple_bind; [apply returns_keeping_keeps, ingest_chunks_keeps, Hins|].
  intros [|]; [|now apply triple_ret].
  eapply triple_bind; [apply returns_keeping_keeps, print_keeps|]. intros ?.
  now apply triple_ret.
Qed.

Lemma retrieve_docs_keeps (conn : connection) (user_query : string) :
  keeps I (retrieve_docs conn user_query).
Proof.
  unfold retrieve_docs.
  eapply triple_bind; [apply embeddings_keeps|]. intros q.
  eapply triple_bind; [apply check_connection_keeps|]. intros ?.
  apply select_nearest_keeps.
Qed.

(** [run_rag_query] catches every exception: it always returns. *)
Lemma run_rag_query_keeps (conn : connection) (user_query : string) :
  returns_keeping I (run_rag_query conn user_query).
Proof.
  unfold run_rag_query.
  eapply triple_bind; [apply print_keeps|]. intros ?.
  eapply triple_try_except with (E' := fun _ => I).
  - eapply triple_bind; [apply retrieve_docs_keeps|]. intros docs.
    eapply triple_bind; [apply returns_keeping_keeps, print_keeps|]. intros ?.
    eapply triple_bind; [apply returns_keeping_keeps, print_docs_keeps|]. intros ?.
    eapply triple_bind; [apply returns_keeping_keeps, print_keeps|]. intros ?.
    eapply triple_bind; [apply generate_keeps|]. intros stream.
    eapply triple_bind; [apply returns_keeping_keeps, print_keeps|]. intros ?.
    eapply triple_bind; [apply consume_keeps|]. intros full.
    eapply triple_bind; [apply returns_keeping_keeps, print_keeps|]. intros ?.
    now apply triple_ret.
  - intros e. unfold query_handler.
    destruct (exn_kind e);
      (eapply triple_bind; [apply print_keeps|]; intros ?;
       eapply triple_bind; [apply print_keeps|]; intros ?; now apply triple_ret)
      || (eapply triple_bind; [apply print_keeps|]; intros ?; now apply triple_ret).
Qed.

End Invariant.

(** ** Ordering rows *)

Section Ordering.

Variable le : row -> row -> bool.

Lemma insert_by_permutation (r : row) (l : list row) :
  Permutation (insert_by le r l) (r :: l).
Proof.
  induction l as [|r' rest IH]; simpl; [reflexivity|].
  destruct (le r r'); [reflexivity|].
  rewrite IH. apply perm_swap.
Qed.

Lemma order_by_permutation (l : list row) : Permutation (order_by le l) l.
Proof.
  induction l as [|r rest IH]; simpl; [reflexivity|].
  rewrite insert_by_permutation. now constructor.
Qed.

Hypothesis le_total : forall a b, le a b = true \/ le b a = true.
Hypothesis le_trans : forall a b c, le a b = true -> le b c = true -> le a c = true.

Lemma insert_by_sorted (r : row) (l : list row) :
  StronglySorted (fun a b => le a b = true) l ->
  StronglySorted (fun a b => le a b = true) (insert_by le r l).
Proof.
  induction 1 as [|r' rest Hs IH Hall]; simpl.
  - repeat constructor.
  - destruct (le r r') eqn:E.
    + constructor; [now constructor|].
      constructor; [assumption|].
      eapply Forall_impl; [|exact Hall]. intros b Hb. now apply le_trans with r'.
    + constructor; [assumption|].
      rewrite Forall_forall in *. intros b Hb.
      apply (Permutation_in _ (insert_by_permutation r rest)) in Hb.
      destruct Hb as [<- | Hb]; [|auto].
      destruct (le_total r r') as [H|H]; [congruence | assumption].
Qed.

Lemma order_by_sorted (l : list row) :
  StronglySorted (fun a b => le a b = true) (order_by le l).
Proof.
  induction l as [|r rest IH]; simpl; [constructor | now apply insert_by_sorted].
Qed.

End Ordering.

Lemma firstn_strongly_sorted {A} (R : A -> A -> Prop) (n : nat) (l : list A) :
  StronglySorted R l -> StronglySorted R (firstn n l).
Proof.
  intros H. revert n. induction H as [|a l Hs IH Hall]; intros [|n]; simpl;
    try constructor.
  - apply IH.
  - rewrite Forall_forall in *. intros b Hb. apply Hall.
    rewrite <- (firstn_skipn n l). apply in_or_app. now left.
Qed.

Lemma sorted_prefix_before_suffix {A} (R : A -> A -> Prop) (n : nat) (l : list A) :
  StronglySorted R l ->
  Forall (fun far => Forall (fun near => R near far) (firstn n l)) (skipn n l).
Proof.
  intros H. revert n. induction H as [|a l Hs IH Hall]; intros [|n]; simpl.
  - constructor.
  - constructor.
  - apply Forall_forall. intros; constructor.
  - specialize (IH n). rewrite Forall_forall in *. intros far Hfar.
    constructor; [|now apply IH].
    apply Hall. rewrite <- (firstn_skipn n l). apply in_or_app. now right.
Qed.

(** ** The three outcomes of [setup_database] *)

Ltac step :=
  unfold setup_database, try_except, bind, ret, raise, modify, print, print_end,
    connect, close, cursor, send, check_connection, select_vector_extension,
    drop_documents, create_documents, sleep,
    write_stdout, set_conn_state, set_documents, log_statement, log_embed,
    log_generate;
  cbn.

Lemma setup_database_unreachable (w : world) (details : string) :
  pg_unreachable w = Some details ->
  setup_database w =
    (Return None,
     mkWorld (Some details) (pg_vector_extension w) (pg_documents w)
             (conn_state w) (pg_log w) (embed_log w) (generate_log w)
             (stdout w ++
                [PyStr.nl +++ "--- Connecting to PostgreSQL database ---" +++ PyStr.nl;
                 PyStr.nl +++ "Error: Could not connect to PostgreSQL. Please ensure the Docker container is running and accessible." +++ PyStr.nl;
                 "Details: " +++ details +++ PyStr.nl])).
Proof.
  intros H. step. rewrite H. cbn. rewrite <- !app_assoc. reflexivity.
Qed.

Lemma setup_database_no_extension (w : world) :
  pg_unreachable w = None -> pg_vector_extension w = false ->
  setup_database w =
    (Return None,
     mkWorld None false (pg_documents w) Open
             (pg_log w ++ [SelectVectorExtension]) (embed_log w) (generate_log w)
             (stdout w ++
                [PyStr.nl +++ "--- Connecting to PostgreSQL database ---" +++ PyStr.nl;
                 "Connection successful!" +++ PyStr.nl;
                 "pgvector extension not found. Please ensure your Docker image supports it." +++ PyStr.nl;
                 "This script uses the 'ankane/pgvector' Docker image which has it pre-installed." +++ PyStr.nl;
                 "If you're running a different PostgreSQL image, you may need to install it manually." +++ PyStr.nl])).
Proof.
  intros Hu He. step. rewrite Hu. cbn. rewrite He. cbn.
  rewrite <- !app_assoc. reflexivity.
Qed.

Lemma setup_database_ready (w : world) :
  pg_unreachable w = None -> pg_vector_extension w = true ->
  setup_database w =
    (Return (Some Conn),
     mkWorld None true (Some (mkTable VECTOR_DIMENSION [] 1%Z)) Open
             (pg_log w ++ [SelectVectorExtension; DropDocuments;
                           CreateDocuments VECTOR_DIMENSION])
             (embed_log w) (generate_log w)
             (stdout w ++
                [PyStr.nl +++ "--- Connecting to PostgreSQL database ---" +++ PyStr.nl;
                 "Connection successful!" +++ PyStr.nl;
                 "pgvector extension is installed." +++ PyStr.nl;
                 "Table 'documents' created successfully with a VECTOR(768) column." +++ PyStr.nl])).
Proof.
  intros Hu He. step. rewrite Hu. cbn. rewrite He. cbn.
  rewrite <- !app_assoc. reflexivity.
Qed.

(** [setup_database] returns a connection only in the third case. *)
Lemma setup_database_connected (w w' : world) (conn : connection) :
  setup_database w = (Return (Some conn), w') ->
  pg_unreachable w = None /\ pg_vector_extension w = true
  /\ conn_state w' = Open
  /\ pg_documents w' = Some (mkTable VECTOR_DIMENSION [] 1%Z)
  /\ embed_log w' = embed_log w /\ generate_log w' = generate_log w.
Proof.
  intros H.
  destruct (pg_unreachable w) as [details|] eqn:Hu.
  - rewrite (setup_database_unreachable w details Hu) in H. discriminate.
  - destruct (pg_vector_extension w) eqn:He.
    + rewrite (setup_database_ready w Hu He) in H.
      destruct conn. injection H as <-. cbn. repeat split.
    + rewrite (setup_database_no_extension w Hu He) in H. discriminate.
Qed.

(** ** One iteration of the ingestion loop *)

Lemma ingest_chunk_stored (conn : connection) (chunk : string) (v : list scalar)
      (t : table) (w : world) :
  conn_state w = Open -> pg_documents w = Some t ->
  ollama_embeddings (length (embed_log w)) EMBEDDING_MODEL chunk = Embedding v ->
  valid_vector v = true -> length v = vector_dim t ->
  ingest_chunk conn chunk w =
    (Return true,
     mkWorld (pg_unreachable w) (pg_vector_extension w)
             (Some (mkTable (vector_dim t)
                            (rows t ++ [mkRow (next_id t) chunk v])
                            (next_id t + 1)%Z))
             Open (pg_log w ++ [InsertDocument chunk v]) (embed_log w ++ [chunk])
             (generate_log w)
             (stdout w ++
                [("Processing chunk: '" +++ PyStr.take 50 chunk +++ "...'") +++ PyStr.nl;
                 "Inserted chunk into database. Vector dimension: "
                   +++ PyStr.str_nat (length v) +++ PyStr.nl])).
Proof.
  intros Hc Ht Hv Hvalid Hlen.
  unfold ingest_chunk, embeddings, insert_document. step.
  rewrite Hv, Hc. cbn. rewrite Ht, Hvalid, Hlen, Nat.eqb_refl. cbn.
  rewrite <- !app_assoc. reflexivity.
Qed.

(** What the [except] clauses print for an exception. *)
Definition ingest_report (e : exn) : list string :=
  match exn_kind e with
  | RequestError | ResponseError =>
      [PyStr.nl +++ "Error: Could not connect to Ollama. Please ensure the Docker container is running and the model is pulled." +++ PyStr.nl;
       "Details: " +++ exn_text e +++ PyStr.nl]
  | _ => ["An unexpected error occurred: " +++ exn_text e +++ PyStr.nl]
  end.

Lemma ingest_chunk_embedding_fails (conn : connection) (chunk : string) (e : exn)
      (w : world) :
  ollama_embeddings (length (embed_log w)) EMBEDDING_MODEL chunk = EmbedRaise e ->
  ingest_chunk conn chunk w =
    (Return false,
     mkWorld (pg_unreachable w) (pg_vector_extension w) (pg_documents w)
             (conn_state w) (pg_log w) (embed_log w ++ [chunk]) (generate_log w)
             (stdout w ++
                (("Processing chunk: '" +++ PyStr.take 50 chunk +++ "...'") +++ PyStr.nl)
                :: ingest_report e)).
Proof.
  intros Hv.
  unfold ingest_chunk, embeddings, ingest_handler, ingest_report. step.
  rewrite Hv. destruct (exn_kind e); step; rewrite <- !app_assoc; reflexivity.
Qed.

(** The vector is returned but the table refuses it. *)
Lemma ingest_chunk_insert_refused (conn : connection) (chunk : string)
      (v : list scalar) (t : table) (w : world) :
  conn_state w = Open -> pg_documents w = Some t ->
  ollama_embeddings (length (embed_log w)) EMBEDDING_MODEL chunk = Embedding v ->
  length v <> vector_dim t ->
  ingest_chunk conn chunk w =
    (Return false,
     mkWorld (pg_unreachable w) (pg_vector_extension w) (Some t) Open
             (pg_log w ++ [InsertDocument chunk v]) (embed_log w ++ [chunk])
             (generate_log w)
             (stdout w ++
                [("Processing chunk: '" +++ PyStr.take 50 chunk +++ "...'") +++ PyStr.nl;
                 "An unexpected error occurred: expected another number of dimensions"
                   +++ PyStr.nl])).
Proof.
  intros Hc Ht Hv Hlen.
  unfold ingest_chunk, embeddings, insert_document, ingest_handler. step.
  rewrite Hv, Hc. cbn. rewrite Ht.
  apply Nat.eqb_neq in Hlen. rewrite Hlen, andb_false_r. cbn.
  rewrite <- !app_assoc. reflexivity.
Qed.

Lemma embedded_as_length (n : nat) (chunks : list string) (vs : list (list scalar)) :
  embedded_as n chunks vs -> length vs = length chunks.
Proof. induction 1; simpl; congruence. Qed.

Lemma chunk_records_content (id : Z) (chunks : list string) (vs : list (list scalar)) :
  length vs = length chunks -> map content (chunk_records id chunks vs) = chunks.
Proof.
  revert id vs. induction chunks as [|c cs IH]; intros id [|v vs] H; simpl in *;
    try discriminate; [reflexivity|].
  f_equal. apply IH. congruence.
Qed.

Lemma chunk_records_embedding (id : Z) (chunks : list string) (vs : list (list scalar)) :
  length vs = length chunks -> map embedding (chunk_records id chunks vs) = vs.
Proof.
  revert id vs. induction chunks as [|c cs IH]; intros id [|v vs] H; simpl in *;
    try discriminate; [reflexivity|].
  f_equal. apply IH. congruence.
Qed.

(** ** The whole loop *)

(** Every chunk is embedded and accepted: one row per chunk. *)
Lemma ingest_chunks_stored (conn : connection) (chunks : list string) :
  forall (vs : list (list scalar)) (t : table) (w : world),
    conn_state w = Open -> pg_documents w = Some t ->
    embedded_as (length (embed_log w)) chunks vs ->
    Forall (fun v => valid_vector v = true /\ length v = vector_dim t) vs ->
    exists w',
      ingest_chunks conn chunks w = (Return true, w')
      /\ conn_state w' = Open
      /\ pg_documents w' =
           Some (mkTable (vector_dim t)
                         (rows t ++ chunk_records (next_id t) chunks vs)
                         (next_id t + Z.of_nat (length chunks))%Z)
      /\ embed_log w' = embed_log w ++ chunks
      /\ pg_log w' = pg_log w ++ chunk_inserts chunks vs
      /\ generate_log w' = generate_log w.
Proof.
  induction chunks as [|chunk rest IH]; intros vs t w Hc Ht Hemb Hok.
  - inversion Hemb; subst. exists w. cbn.
    rewrite !app_nil_r, Z.add_0_r. destruct t. auto 6.
  - inversion Hemb as [|n p ps v vs' Hv Hrest]; subst.
    inversion Hok as [|v0 vs0 [Hvalid Hlen] Hok']; subst.
    cbn [ingest_chunks]. unfold bind at 1.
    rewrite (ingest_chunk_stored conn chunk v t w Hc Ht Hv Hvalid Hlen).
    cbv beta iota.
    assert (Hrest' : embedded_as (length (embed_log w ++ [chunk])) rest vs')
      by (rewrite length_app, Nat.add_comm; exact Hrest).
    match goal with
    | |- context [ingest_chunks conn rest ?w1] =>
        destruct (IH vs' (mkTable (vector_dim t)
                                  (rows t ++ [mkRow (next_id t) chunk v])
                                  (next_id t + 1)%Z)
                     w1 eq_refl eq_refl Hrest' Hok')
          as [w' [Hrun [Hc' [Ht' [He' [Hl' Hg']]]]]]
    end.
    exists w'. cbn in *. rewrite Hrun, Hc', Ht', He', Hl', Hg'.
    rewrite <- !app_assoc. cbn.
    replace (next_id t + 1 + Z.of_nat (length rest))%Z
      with (next_id t + Z.pos (Pos.of_succ_nat (length rest)))%Z by lia.
    repeat split.
Qed.

(** The request for [chunk] fails after [before] was stored: the loop stops
    there, with the rows of [before] and nothing else. *)
Lemma ingest_chunks_aborted (conn : connection) (before : list string) :
  forall (vs : list (list scalar)) (t : table) (w : world)
         (chunk : string) (after : list string) (e : exn),
    conn_state w = Open -> pg_documents w = Some t ->
    embedded_as (length (embed_log w)) before vs ->
    Forall (fun v => valid_vector v = true /\ length v = vector_dim t) vs ->
    ollama_embeddings (length (embed_log w) + length before) EMBEDDING_MODEL chunk
      = EmbedRaise e ->
    exists w',
      ingest_chunks conn (before ++ chunk :: after) w = (Return false, w')
      /\ conn_state w' = Open
      /\ pg_documents w' =
           Some (mkTable (vector_dim t)
                         (rows t ++ chunk_records (next_id t) before vs)
                         (next_id t + Z.of_nat (length before))%Z)
      /\ embed_log w' = embed_log w ++ before ++ [chunk]
      /\ pg_log w' = pg_log w ++ chunk_inserts before vs
      /\ generate_log w' = generate_log w.
Proof.
  induction before as [|b rest IH]; intros vs t w chunk after e Hc Ht Hemb Hok Hfail.
  - inversion Hemb; subst. cbn [app ingest_chunks]. unfold bind at 1.
    rewrite Nat.add_0_r in Hfail.
    rewrite (ingest_chunk_embedding_fails conn chunk e w Hfail).
    eexists. split; [reflexivity|]. cbn.
    rewrite !app_nil_r, Z.add_0_r. destruct t. cbn in *. auto 6.
  - inversion Hemb as [|n p ps v vs' Hv Hrest]; subst.
    inversion Hok as [|v0 vs0 [Hvalid Hlen] Hok']; subst.
    cbn [app ingest_chunks]. unfold bind at 1.
    rewrite (ingest_chunk_stored conn b v t w Hc Ht Hv Hvalid Hlen).
    cbv beta iota.
    assert (Hrest' : embedded_as (length (embed_log w ++ [b])) rest vs')
      by (rewrite length_app, Nat.add_comm; exact Hrest).
    assert (Hfail' : ollama_embeddings (length (embed_log w ++ [b]) + length rest)
                       EMBEDDING_MODEL chunk = EmbedRaise e).
    { rewrite length_app. cbn in *.
      replace (length (embed_log w) + 1 + length rest)
        with (length (embed_log w) + S (length rest)) by lia.
      exact Hfail. }
    match goal with
    | |- context [ingest_chunks conn (rest ++ chunk :: after) ?w1] =>
        destruct (IH vs' (mkTable (vector_dim t)
                                  (rows t ++ [mkRow (next_id t) b v])
                                  (next_id t + 1)%Z)
                     w1 chunk after e eq_refl eq_refl Hrest' Hok' Hfail')
          as [w' [Hrun [Hc' [Ht' [He' [Hl' Hg']]]]]]
    end.
    exists w'. cbn in *. rewrite Hrun, Hc', Ht', He', Hl', Hg'.
    rewrite <- !app_assoc. cbn.
    replace (next_id t + 1 + Z.of_nat (length rest))%Z
      with (next_id t + Z.pos (Pos.of_succ_nat (length rest)))%Z by lia.
    repeat split.
Qed.

(** [ingest_data] around its loop, on an open connection. *)
Lemma ingest_document_loop (conn : connection) (document : string) (w : world) :
  conn_state w = Open ->
  ingest_document conn document w =
    match ingest_chunks conn (chunk_document document)
            (write_stdout (PyStr.nl +++ "--- Ingesting sample data and creating embeddings ---" +++ PyStr.nl) w)
    with
    | (Return true, w') =>
        (Return true, write_stdout (PyStr.nl +++ "Data ingestion complete." +++ PyStr.nl) w')
    | other => other
    end.
Proof.
  intros Hc. unfold ingest_document, print, modify, cursor, check_connection, ret.
  unfold bind at 1. unfold bind at 1. cbn [conn_state write_stdout]. rewrite Hc.
  unfold bind at 1.
  destruct (ingest_chunks _ _ _) as [[[|]|e] w']; reflexivity.
Qed.

(** ** Retrieval *)

(** [retrieve_docs] returns exactly when the question is embedded, the
    connection is open, the table exists and the query vector is acceptable;
    it then returns the contents of [nearest]. *)
Lemma retrieve_docs_inversion (conn : connection) (user_query : string)
      (w w' : world) (docs : list string) :
  retrieve_docs conn user_query w = (Return docs, w') ->
  exists t q,
    pg_documents w = Some t
    /\ ollama_embeddings (length (embed_log w)) EMBEDDING_MODEL user_query = Embedding q
    /\ docs = map content (nearest q 3 (rows t))
    /\ w' = log_statement (SelectNearest q 3) (log_embed user_query w).
Proof.
  unfold retrieve_docs, embeddings, select_nearest. step.
  destruct (ollama_embeddings _ _ _) as [q|e]; [|discriminate].
  destruct (conn_state w); try discriminate. cbn.
  destruct (pg_documents w) as [t|]; [|discriminate].
  destruct (negb (valid_vector q)); [discriminate|].
  destruct (forallb _ _); [|discriminate].
  intros [= <- <-]. exists t, q. repeat split.
Qed.

Lemma retrieve_docs_selects (conn : connection) (user_query : string)
      (w : world) (t : table) (q : list scalar) :
  conn_state w = Open -> pg_documents w = Some t ->
  ollama_embeddings (length (embed_log w)) EMBEDDING_MODEL user_query = Embedding q ->
  valid_vector q = true ->
  Forall (fun r => length (embedding r) = length q) (rows t) ->
  retrieve_docs conn user_query w =
    (Return (map content (nearest q 3 (rows t))),
     log_statement (SelectNearest q 3) (log_embed user_query w)).
Proof.
  intros Hc Ht Hq Hvalid Hwidth.
  unfold retrieve_docs, embeddings, select_nearest. step.
  rewrite Hq, Hc. cbn. rewrite Ht, Hvalid. cbn.
  replace (forallb _ (rows t)) with true; [reflexivity|].
  symmetry. apply forallb_forall. rewrite Forall_forall in Hwidth.
  intros r Hr. apply Nat.eqb_eq. auto.
Qed.

Section Ranking.

(** PostgreSQL compares the values of [<=>] with a total order. *)
Hypothesis key_leb_total : forall a b, key_leb a b = true \/ key_leb b a = true.
Hypothesis key_leb_trans :
  forall a b c, key_leb a b = true -> key_leb b c = true -> key_leb a c = true.

Lemma nearest_sorted (q : list scalar) (limit : nat) (l : list row) :
  StronglySorted (by_distance q) (nearest q limit l).
Proof.
  unfold nearest. apply firstn_strongly_sorted.
  apply (order_by_sorted (closer q)); unfold closer; intros; eauto.
Qed.

Lemma nearest_are_nearest (q : list scalar) (limit : nat) (l : list row) :
  exists rest,
    Permutation (nearest q limit l ++ rest) l
    /\ Forall (fun far => Forall (fun near => by_distance q near far)
                                 (nearest q limit l)) rest.
Proof.
  exists (skipn limit (order_by (closer q) l)). unfold nearest. split.
  - rewrite firstn_skipn. apply order_by_permutation.
  - apply (sorted_prefix_before_suffix (by_distance q)).
    apply (order_by_sorted (closer q)); unfold closer; intros; eauto.
Qed.

(** C3: the nearest-neighbour retrieval of [run_rag_query] returns at most 3
    records, in non-decreasing order of the cosine distance between their
    stored vectors and the query embedding: whenever the retrieval returns,
    what it returns is the contents of at most three rows of the table, sorted
    by distance, no left-out row being closer than a returned one; and it
    does return on an open connection when the question is embedded into a
    vector the table's rows can be compared with. *)
Theorem retrieval_returns_at_most_three_sorted
        (conn : connection) (user_query : string) (w : world) :
  (forall docs w',
      retrieve_docs conn user_query w = (Return docs, w') ->
      exists t q selected rest,
        pg_documents w = Some t
        /\ ollama_embeddings (length (embed_log w)) EMBEDDING_MODEL user_query
           = Embedding q
        /\ docs = map content selected
        /\ length docs <= 3
        /\ length selected = Nat.min 3 (length (rows t))
        /\ StronglySorted (by_distance q) selected
        /\ Permutation (selected ++ rest) (rows t)
        /\ Forall (fun far => Forall (fun near => by_distance q near far) selected)
                  rest)
  /\ (forall t q,
         conn_state w = Open -> pg_documents w = Some t ->
         ollama_embeddings (length (embed_log w)) EMBEDDING_MODEL user_query
           = Embedding q ->
         valid_vector q = true ->
         Forall (fun r => length (embedding r) = length q) (rows t) ->
         exists w',
           retrieve_docs conn user_query w
             = (Return (map content (nearest q 3 (rows t))), w')).
Proof.
  split.
  - intros docs w' H.
    apply retrieve_docs_inversion in H. destruct H as [t [q [Ht [Hq [-> _]]]]].
    destruct (nearest_are_nearest q 3 (rows t)) as [rest [Hperm Hfar]].
    exists t, q, (nearest q 3 (rows t)), rest.
    repeat split; try assumption.
    + rewrite length_map. unfold nearest. apply firstn_le_length.
    + unfold nearest. rewrite length_firstn.
      now rewrite (Permutation_length (order_by_permutation (closer q) (rows t))).
    + apply nearest_sorted.
  - intros t q Hc Ht Hq Hvalid Hwidth. eexists.
    now apply retrieve_docs_selects.
Qed.

End Ranking.

(** ** Ingestion *)

Lemma configured_dimension_valid (v : list scalar) :
  length v = VECTOR_DIMENSION -> valid_vector v = true.
Proof. intros H. unfold valid_vector. rewrite H. reflexivity. Qed.

Lemma configured_vectors_accepted (t : table) (vs : list (list scalar)) :
  vector_dim t = VECTOR_DIMENSION ->
  Forall (fun v => length v = VECTOR_DIMENSION) vs ->
  Forall (fun v => valid_vector v = true /\ length v = vector_dim t) vs.
Proof.
  intros Ht H. eapply Forall_impl; [|exact H]. cbv beta. intros v Hv.
  split; [now apply configured_dimension_valid | congruence].
Qed.

(** C1 (amended): ingestion splits the document at every ['.'], strips each
    fragment and drops the fragments that are empty once stripped; when
    every embedding request succeeds with a vector of the configured
    dimension, [ingest_data], run on the table that [setup_database] has just
    created, returns [True] and the table then holds one record per
    non-empty stripped fragment, in document order, each with its chunk and
    the vector returned for it. *)
Theorem ingest_stores_one_record_per_fragment
        (w0 w1 : world) (conn : connection) (document : string)
        (vs : list (list scalar)) :
  setup_database w0 = (Return (Some conn), w1) ->
  embedded_as (length (embed_log w1)) (chunk_document document) vs ->
  Forall (fun v => length v = VECTOR_DIMENSION) vs ->
  let fragments := PyStr.split "."%char document in
  let kept := filter (fun fragment => PyStr.truthy (PyStr.strip fragment)) fragments in
  PyStr.join "." fragments = document
  /\ Forall (fun fragment => PyStr.mem "."%char fragment = false) fragments
  /\ chunk_document document = map PyStr.strip kept
  /\ Forall (fun chunk => chunk <> "" /\ PyStr.trimmed chunk = true)
            (chunk_document document)
  /\ exists w2 t,
       ingest_document conn document w1 = (Return true, w2)
       /\ pg_documents w2 = Some t
       /\ map content (rows t) = chunk_document document
       /\ map embedding (rows t) = vs
       /\ length (rows t) = length kept.
Proof.
  intros Hsetup Hemb Hdim fragments kept.
  split; [apply split_join|].
  split; [apply split_no_sep|].
  split; [reflexivity|].
  split.
  { eapply Forall_impl; [|apply chunk_document_chunks]. cbv beta.
    intros chunk [Hne [Htrim _]]. auto. }
  apply setup_database_connected in Hsetup.
  destruct Hsetup as [_ [_ [Hc [Ht _]]]].
  pose proof (embedded_as_length _ _ _ Hemb) as Hlen.
  rewrite (ingest_document_loop conn document w1 Hc).
  match goal with
  | |- context [ingest_chunks conn _ ?w1'] =>
      destruct (ingest_chunks_stored conn (chunk_document document) vs
                  (mkTable VECTOR_DIMENSION [] 1%Z) w1' Hc Ht Hemb
                  (configured_vectors_accepted (mkTable VECTOR_DIMENSION [] 1%Z)
                     vs eq_refl Hdim))
        as [w2 [Hrun [_ [Ht2 _]]]]
  end.
  rewrite Hrun. eexists. eexists. split; [reflexivity|]. cbn.
  split; [exact Ht2|]. cbn.
  rewrite chunk_records_content, chunk_records_embedding by assumption.
  repeat split.
  rewrite <- (length_map content), chunk_records_content by assumption.
  unfold chunk_document. fold fragments. fold kept. apply length_map.
Qed.

(** C2: when the embedding request for a chunk fails, the chunks before it
    having been embedded and stored, [ingest_data] returns [False]; every
    chunk up to the failing one was requested once, and none after it; the
    table holds the rows it held before followed by one intact row per chunk
    stored before the failure, and nothing else. *)
Theorem ingest_aborts_at_first_embedding_failure
        (conn : connection) (document : string) (before after : list string)
        (chunk : string) (vs : list (list scalar)) (e : exn) (t : table)
        (w : world) :
  conn_state w = Open -> pg_documents w = Some t ->
  vector_dim t = VECTOR_DIMENSION ->
  chunk_document document = before ++ chunk :: after ->
  embedded_as (length (embed_log w)) before vs ->
  Forall (fun v => length v = VECTOR_DIMENSION) vs ->
  ollama_embeddings (length (embed_log w) + length before) EMBEDDING_MODEL chunk
    = EmbedRaise e ->
  exists w' t',
    ingest_document conn document w = (Return false, w')
    /\ embed_log w' = embed_log w ++ before ++ [chunk]
    /\ pg_log w' = pg_log w ++ chunk_inserts before vs
    /\ pg_documents w' = Some t'
    /\ vector_dim t' = VECTOR_DIMENSION
    /\ rows t' = rows t ++ chunk_records (next_id t) before vs
    /\ map content (chunk_records (next_id t) before vs) = before
    /\ map embedding (chunk_records (next_id t) before vs) = vs
    /\ Forall (fun r => length (embedding r) = VECTOR_DIMENSION)
              (chunk_records (next_id t) before vs).
Proof.
  intros Hc Ht Hdim Hchunks Hemb Hvs Hfail.
  pose proof (embedded_as_length _ _ _ Hemb) as Hlen.
  rewrite (ingest_document_loop conn document w Hc), Hchunks.
  match goal with
  | |- context [ingest_chunks conn _ ?w1] =>
      destruct (ingest_chunks_aborted conn before vs t w1 chunk after e
                  Hc Ht Hemb (configured_vectors_accepted t vs Hdim Hvs) Hfail)
        as [w' [Hrun [_ [Ht' [He' [Hl' _]]]]]]
  end.
  rewrite Hrun. eexists. eexists. split; [reflexivity|].
  split; [exact He'|]. split; [exact Hl'|]. split; [exact Ht'|]. cbn.
  split; [assumption|]. split; [reflexivity|].
  split; [now apply chunk_records_content|].
  split; [now apply chunk_records_embedding|].
  apply Forall_forall. intros r Hr.
  apply (in_map embedding) in Hr. rewrite chunk_records_embedding in Hr by assumption.
  rewrite Forall_forall in Hvs. auto.
Qed.

(** C9: a document without a non-empty stripped fragment leads to no
    embedding request and no insertion, and [ingest_data] returns [True]. *)
Theorem ingest_of_blank_document_succeeds
        (conn : connection) (document : string) (w : world) :
  conn_state w = Open -> chunk_document document = [] ->
  ingest_document conn document w =
    (Return true,
     mkWorld (pg_unreachable w) (pg_vector_extension w) (pg_documents w) Open
             (pg_log w) (embed_log w) (generate_log w)
             (stdout w ++
                [PyStr.nl +++ "--- Ingesting sample data and creating embeddings ---" +++ PyStr.nl;
                 PyStr.nl +++ "Data ingestion complete." +++ PyStr.nl])).
Proof.
  intros Hc Hnone.
  rewrite (ingest_document_loop conn document w Hc), Hnone.
  cbn. unfold write_stdout. cbn. rewrite Hc, <- !app_assoc. reflexivity.
Qed.

(** ** Invariants of the run *)

(** Every vector stored in [documents] has the configured dimension (and the
    column is declared with it). *)
Definition stored_vectors_fit (w : world) : Prop :=
  forall t, pg_documents w = Some t ->
            vector_dim t = VECTOR_DIMENSION
            /\ Forall (fun r => length (embedding r) = VECTOR_DIMENSION) (rows t).

Definition connection_open (w : world) : Prop := conn_state w = Open.

Lemma stored_vectors_fit_blind : log_blind stored_vectors_fit.
Proof. split; intros ? w H; exact H. Qed.

Lemma connection_open_blind : log_blind connection_open.
Proof. split; intros ? w H; exact H. Qed.

Lemma drop_documents_fits (conn : connection) :
  keeps stored_vectors_fit (drop_documents conn).
Proof.
  eapply triple_bind; [apply send_keeps, stored_vectors_fit_blind|]. intros ?.
  apply triple_modify. intros w _ t. discriminate.
Qed.

Lemma create_documents_fits (conn : connection) :
  keeps stored_vectors_fit (create_documents conn VECTOR_DIMENSION).
Proof.
  eapply triple_bind; [apply send_keeps, stored_vectors_fit_blind|]. intros ?.
  intros w Hw. destruct (negb (pg_vector_extension w)); [assumption|].
  destruct (pg_documents w) eqn:Ht; [assumption|].
  intros t. cbn. intros [= <-]. cbn. auto.
Qed.

(** The table accepts a row only when its vector has the column's width. *)
Lemma insert_document_fits (conn : connection) (chunk : string) (v : list scalar) :
  keeps stored_vectors_fit (insert_document conn chunk v).
Proof.
  eapply triple_bind; [apply send_keeps, stored_vectors_fit_blind|]. intros ?.
  intros w Hw. destruct (pg_documents w) as [t|] eqn:Ht; [|assumption].
  destruct (valid_vector v && Nat.eqb (length v) (vector_dim t)) eqn:Hok; [|assumption].
  apply andb_true_iff in Hok. destruct Hok as [_ Hlen]. apply Nat.eqb_eq in Hlen.
  destruct (Hw t Ht) as [Hdim Hrows].
  intros t'. cbn. intros [= <-]. cbn. split; [assumption|].
  apply Forall_app. split; [assumption|]. repeat constructor. cbn. congruence.
Qed.

Lemma connect_fits : keeps stored_vectors_fit connect.
Proof. intros w Hw. unfold connect. destruct (pg_unreachable w); exact Hw. Qed.

Lemma close_fits (conn : connection) : keeps stored_vectors_fit (close conn).
Proof. apply triple_modify. intros w Hw. exact Hw. Qed.

Lemma insert_document_stays_open (conn : connection) (chunk : string) (v : list scalar) :
  keeps connection_open (insert_document conn chunk v).
Proof.
  eapply triple_bind; [apply send_keeps, connection_open_blind|]. intros ?.
  intros w Hw. destruct (pg_documents w); [|assumption].
  destruct (_ && _); assumption.
Qed.

(** The driver, once [setup_database] has run. *)
Lemma run_pipeline_after_setup (document question : string) (w : world) :
  run_pipeline document question w =
    match setup_database
            (write_stdout ("This script will demonstrate how to build a RAG system using local tools." +++ PyStr.nl)
               (write_stdout ("Welcome to the Interactive RAG Tutorial!" +++ PyStr.nl) w))
    with
    | (Return (Some conn), w1) =>
        (ingestion_success <- ingest_document conn document ;;
         if negb ingestion_success then close conn ;; ret tt
         else sleep 2 ;; run_rag_query conn question ;; close conn) w1
    | (Return None, w1) => (Return tt, w1)
    | (Raise e, w1) => (Raise e, w1)
    end.
Proof.
  unfold run_pipeline, print, modify. unfold bind at 1. unfold bind at 1.
  unfold bind at 1. destruct (setup_database _) as [[[c|]|e] w1]; reflexivity.
Qed.

Lemma setup_database_fits (w : world) :
  stored_vectors_fit w -> stored_vectors_fit (snd (setup_database w)).
Proof.
  intros Hw.
  destruct (pg_unreachable w) as [details|] eqn:Hu.
  - rewrite (setup_database_unreachable w details Hu). exact Hw.
  - destruct (pg_vector_extension w) eqn:He.
    + rewrite (setup_database_ready w Hu He). intros t. cbn. intros [= <-]. cbn. auto.
    + rewrite (setup_database_no_extension w Hu He). exact Hw.
Qed.

(** After a connection was returned, the rest of [main] keeps the vectors
    fitting. *)
Lemma serving_fits (conn : connection) (document question : string) :
  keeps stored_vectors_fit
        (ingestion_success <- ingest_document conn document ;;
         if negb ingestion_success then close conn ;; ret tt
         else sleep 2 ;; run_rag_query conn question ;; close conn).
Proof.
  eapply triple_bind.
  - apply ingest_document_keeps; [apply stored_vectors_fit_blind|].
    intros. apply insert_document_fits.
  - intros [|]; cbn [negb].
    + eapply triple_bind with (R := fun _ => stored_vectors_fit);
        [apply triple_ret; auto|]. intros ?.
      eapply triple_bind;
        [apply returns_keeping_keeps, run_rag_query_keeps, stored_vectors_fit_blind|].
      intros ?. apply close_fits.
    + eapply triple_bind; [apply close_fits|]. intros ?. now apply triple_ret.
Qed.

Lemma run_pipeline_fits (document question : string) :
  keeps stored_vectors_fit (run_pipeline document question).
Proof.
  intros w Hw. rewrite run_pipeline_after_setup.
  match goal with
  | |- context [setup_database ?w0] =>
      pose proof (setup_database_fits w0 Hw) as H1;
      destruct (setup_database w0) as [[[conn|]|e] w1]
  end; cbn in H1; try assumption.
  apply (serving_fits conn document question w1 H1).
Qed.

(** After a connection was returned, the rest of [main] returns and has
    closed the connection. *)
Lemma serving_closes (conn : connection) (document question : string) :
  triple connection_open
         (ingestion_success <- ingest_document conn document ;;
          if negb ingestion_success then close conn ;; ret tt
          else sleep 2 ;; run_rag_query conn question ;; close conn)
         (fun _ w => conn_state w = Closed) (fun _ _ => False).
Proof.
  eapply triple_bind with (R := fun _ => connection_open).
  - intros w Hw. rewrite (ingest_document_loop conn document w Hw).
    match goal with
    | |- context [ingest_chunks conn ?chunks ?w0] =>
        pose proof (ingest_chunks_keeps connection_open connection_open_blind
                      conn chunks (insert_document_stays_open conn) w0 Hw) as H1;
        destruct (ingest_chunks conn chunks w0) as [[[|]|e] w1]
    end; cbn in *; assumption.
  - intros [|]; cbn [negb].
    + eapply triple_bind with (R := fun _ => connection_open);
        [apply triple_ret; auto|]. intros ?.
      eapply triple_bind; [apply run_rag_query_keeps, connection_open_blind|].
      intros ?. apply triple_modify. reflexivity.
    + eapply triple_bind with (R := fun _ w => conn_state w = Closed).
      * apply triple_modify. reflexivity.
      * intros ?. now apply triple_ret.
Qed.

(** C4: every vector stored in [documents] has the configured dimension, and
    this is kept by every database operation of the script and by each of its
    stages; after a run, the table either is the one found at startup
    (the run stopped before touching it) or holds only vectors of dimension
    768. *)
Theorem stored_vectors_have_configured_dimension :
  (forall conn, keeps stored_vectors_fit (drop_documents conn))
  /\ (forall conn, keeps stored_vectors_fit (create_documents conn VECTOR_DIMENSION))
  /\ (forall conn chunk v, keeps stored_vectors_fit (insert_document conn chunk v))
  /\ (forall conn q limit, keeps stored_vectors_fit (select_nearest conn q limit))
  /\ (forall w conn w',
         setup_database w = (Return (Some conn), w') -> stored_vectors_fit w')
  /\ (forall conn document, keeps stored_vectors_fit (ingest_document conn document))
  /\ (forall conn question, keeps stored_vectors_fit (run_rag_query conn question))
  /\ keeps stored_vectors_fit main
  /\ (forall w t,
         pg_documents (snd (main w)) = Some t ->
         pg_documents (snd (main w)) = pg_documents w
         \/ Forall (fun r => length (embedding r) = VECTOR_DIMENSION) (rows t)).
Proof.
  split; [exact drop_documents_fits|].
  split; [exact create_documents_fits|].
  split; [exact insert_document_fits|].
  split; [intros; apply select_nearest_keeps, stored_vectors_fit_blind|].
  split.
  { intros w conn w' H. apply setup_database_connected in H.
    destruct H as [_ [_ [_ [Ht _]]]]. intros t. rewrite Ht. intros [= <-]. cbn. auto. }
  split.
  { intros. apply ingest_document_keeps; [apply stored_vectors_fit_blind|].
    intros. apply insert_document_fits. }
  split.
  { intros. apply returns_keeping_keeps, run_rag_query_keeps, stored_vectors_fit_blind. }
  split; [apply run_pipeline_fits|].
  intros w t. unfold main. rewrite run_pipeline_after_setup.
  match goal with |- context [setup_database ?w0] => set (w1 := w0) end.
  destruct (pg_unreachable w) as [details|] eqn:Hu.
  - rewrite (setup_database_unreachable w1 details Hu). cbn. auto.
  - destruct (pg_vector_extension w) eqn:He.
    + rewrite (setup_database_ready w1 Hu He). intros Ht. right.
      match type of Ht with
      | context [bind ?m ?k ?w2] =>
          pose proof (serving_fits Conn document user_question w2) as Hfit
      end.
      match type of Hfit with ?P -> _ => assert (Hstart : P) end.
      { intros t0. cbn. intros [= <-]. cbn. auto. }
      specialize (Hfit Hstart).
      match type of Ht with
      | context [bind ?m ?k ?w2] => destruct (bind m k w2) as [[[]|e] w3]
      end; cbn in Ht; apply (Hfit t Ht).
    + rewrite (setup_database_no_extension w1 Hu He). cbn. auto.
Qed.

(** C5 (what [main] does when the extension is missing): the connection
    opened by [setup_database] is still open when [main] returns. *)
Theorem connection_left_open_when_extension_missing (w : world) :
  pg_unreachable w = None -> pg_vector_extension w = false ->
  fst (main w) = Return tt /\ conn_state (snd (main w)) = Open.
Proof.
  intros Hu He. unfold main. rewrite run_pipeline_after_setup.
  match goal with
  | |- context [setup_database ?w0] => rewrite (setup_database_no_extension w0 Hu He)
  end.
  split; reflexivity.
Qed.

(** X1: on the other paths [main] leaves no connection open: none was opened
    when the server is unreachable, and the one opened is closed whenever
    [setup_database] returned it. *)
Theorem connection_closed_on_other_paths (w : world) :
  (forall details, pg_unreachable w = Some details ->
                   fst (main w) = Return tt /\ conn_state (snd (main w)) = conn_state w)
  /\ (pg_unreachable w = None -> pg_vector_extension w = true ->
      fst (main w) = Return tt /\ conn_state (snd (main w)) = Closed).
Proof.
  unfold main. rewrite run_pipeline_after_setup.
  match goal with |- context [setup_database ?w0] => set (w1 := w0) end.
  split.
  - intros details Hu. rewrite (setup_database_unreachable w1 details Hu).
    split; reflexivity.
  - intros Hu He. rewrite (setup_database_ready w1 Hu He).
    match goal with
    | |- context [bind ?m ?k ?w2] =>
        pose proof (serving_closes Conn document user_question w2 eq_refl) as H;
        destruct (bind m k w2) as [[[]|e] w3]
    end; cbn in *; [auto | contradiction].
Qed.

(** ** Failing initialization *)

(** C6: when the vector extension is absent, [setup_database] prints that
    pgvector was not found and returns no connection, and [main] returns
    right after: the only statement ever sent is the look-up of the
    extension, so the table is neither dropped nor created, nothing is
    inserted, no embedding is requested and the ingestion banner is never
    printed. *)
Theorem missing_extension_aborts_before_any_write (w : world) :
  pg_unreachable w = None -> pg_vector_extension w = false ->
  setup_database w =
    (Return None,
     mkWorld None false (pg_documents w) Open
             (pg_log w ++ [SelectVectorExtension]) (embed_log w) (generate_log w)
             (stdout w ++
                [PyStr.nl +++ "--- Connecting to PostgreSQL database ---" +++ PyStr.nl;
                 "Connection successful!" +++ PyStr.nl;
                 "pgvector extension not found. Please ensure your Docker image supports it." +++ PyStr.nl;
                 "This script uses the 'ankane/pgvector' Docker image which has it pre-installed." +++ PyStr.nl;
                 "If you're running a different PostgreSQL image, you may need to install it manually." +++ PyStr.nl]))
  /\ main w =
       (Return tt,
        mkWorld None false (pg_documents w) Open
                (pg_log w ++ [SelectVectorExtension]) (embed_log w) (generate_log w)
                (stdout w ++
                   ["Welcome to the Interactive RAG Tutorial!" +++ PyStr.nl;
                    "This script will demonstrate how to build a RAG system using local tools." +++ PyStr.nl;
                    PyStr.nl +++ "--- Connecting to PostgreSQL database ---" +++ PyStr.nl;
                    "Connection successful!" +++ PyStr.nl;
                    "pgvector extension not found. Please ensure your Docker image supports it." +++ PyStr.nl;
                    "This script uses the 'ankane/pgvector' Docker image which has it pre-installed." +++ PyStr.nl;
                    "If you're running a different PostgreSQL image, you may need to install it manually." +++ PyStr.nl])).
Proof.
  intros Hu He. split; [now apply setup_database_no_extension|].
  unfold main. rewrite run_pipeline_after_setup.
  match goal with
  | |- context [setup_database ?w0] => rewrite (setup_database_no_extension w0 Hu He)
  end.
  cbn. rewrite <- !app_assoc. reflexivity.
Qed.

(** C7: when the server cannot be reached, [psycopg.connect] raises an
    [OperationalError]; [setup_database] reports that it could not connect,
    with the error's text, and returns no connection; [main] then returns.
    Nothing but the console has changed: no statement was sent, the table is
    as it was, no connection was opened and no service was called. *)
Theorem unreachable_store_is_reported_and_untouched (w : world) (details : string) :
  pg_unreachable w = Some details ->
  connect w = (Raise (mkExn OperationalError details), w)
  /\ setup_database w =
       (Return None,
        mkWorld (Some details) (pg_vector_extension w) (pg_documents w)
                (conn_state w) (pg_log w) (embed_log w) (generate_log w)
                (stdout w ++
                   [PyStr.nl +++ "--- Connecting to PostgreSQL database ---" +++ PyStr.nl;
                    PyStr.nl +++ "Error: Could not connect to PostgreSQL. Please ensure the Docker container is running and accessible." +++ PyStr.nl;
                    "Details: " +++ details +++ PyStr.nl]))
  /\ main w =
       (Return tt,
        mkWorld (Some details) (pg_vector_extension w) (pg_documents w)
                (conn_state w) (pg_log w) (embed_log w) (generate_log w)
                (stdout w ++
                   ["Welcome to the Interactive RAG Tutorial!" +++ PyStr.nl;
                    "This script will demonstrate how to build a RAG system using local tools." +++ PyStr.nl;
                    PyStr.nl +++ "--- Connecting to PostgreSQL database ---" +++ PyStr.nl;
                    PyStr.nl +++ "Error: Could not connect to PostgreSQL. Please ensure the Docker container is running and accessible." +++ PyStr.nl;
                    "Details: " +++ details +++ PyStr.nl])).
Proof.
  intros Hu. split; [unfold connect; now rewrite Hu|].
  split; [now apply setup_database_unreachable|].
  unfold main. rewrite run_pipeline_after_setup.
  match goal with
  | |- context [setup_database ?w0] => rewrite (setup_database_unreachable w0 details Hu)
  end.
  cbn. rewrite <- !app_assoc. reflexivity.
Qed.

(** ** The end-to-end scenario *)

(** The stored vector [a] is strictly closer to [q] than the stored vector [b]. *)
Definition strictly_closer (q a b : list scalar) : Prop :=
  key_leb (cosine_distance a q) (cosine_distance b q) = true
  /\ key_leb (cosine_distance b q) (cosine_distance a q) = false.

(** C8: the document "A. B. C." is cut into the chunks "A", "B" and "C";
    with embeddings of the configured dimension each chunk is stored as one
    record; and a question whose embedding is strictly closer to the vector
    of "B" than to those of "A" and "C" retrieves "B" first. *)
Theorem three_sentence_document_retrieves_closest
        (w0 : world) (question : string) (eA eB eC q : list scalar) :
  pg_unreachable w0 = None -> pg_vector_extension w0 = true ->
  embedded_as (length (embed_log w0)) ["A"; "B"; "C"] [eA; eB; eC] ->
  ollama_embeddings (length (embed_log w0) + 3) EMBEDDING_MODEL question = Embedding q ->
  Forall (fun v => length v = VECTOR_DIMENSION) [eA; eB; eC; q] ->
  strictly_closer q eB eA -> strictly_closer q eB eC ->
  chunk_document "A. B. C." = ["A"; "B"; "C"]
  /\ exists w1 w2 w3 second third,
       setup_database w0 = (Return (Some Conn), w1)
       /\ ingest_document Conn "A. B. C." w1 = (Return true, w2)
       /\ pg_documents w2 =
            Some (mkTable VECTOR_DIMENSION
                          [mkRow 1 "A" eA; mkRow 2 "B" eB; mkRow 3 "C" eC] 4)
       /\ retrieve_docs Conn question w2 = (Return ["B"; second; third], w3).
Proof.
  intros Hu He Hemb Hq Hdim [HBA HAB] [HBC _].
  split; [reflexivity|].
  inversion Hdim as [|? ? HA Hdim1]; subst.
  inversion Hdim1 as [|? ? HB Hdim2]; subst.
  inversion Hdim2 as [|? ? HC Hdim3]; subst.
  inversion Hdim3 as [|? ? HQ _]; subst.
  pose proof (setup_database_ready w0 Hu He) as Hsetup.
  match type of Hsetup with _ = (_, ?w) => set (w1 := w) in Hsetup end.
  pose proof (ingest_document_loop Conn "A. B. C." w1 eq_refl) as Hingest.
  change (chunk_document "A. B. C.") with ["A"; "B"; "C"] in Hingest.
  match type of Hingest with
  | context [ingest_chunks Conn _ ?w1'] =>
      destruct (ingest_chunks_stored Conn ["A"; "B"; "C"] [eA; eB; eC]
                  (mkTable VECTOR_DIMENSION [] 1%Z) w1' eq_refl eq_refl Hemb)
        as [w2 [Hrun [Hc2 [Ht2 [He2 _]]]]]
  end.
  { repeat constructor; auto using configured_dimension_valid. }
  rewrite Hrun in Hingest. cbn in Ht2, He2.
  assert (Hnear : exists second third,
             map content (nearest q 3 [mkRow 1 "A" eA; mkRow 2 "B" eB; mkRow 3 "C" eC])
             = ["B"; second; third]).
  { unfold nearest, order_by, closer. cbn. rewrite HBC. cbn. rewrite HAB. cbn.
    destruct (key_leb (cosine_distance eA q) (cosine_distance eC q)); cbn; eauto. }
  destruct Hnear as [second [third Hnear]].
  exists w1. eexists. eexists. exists second, third.
  split; [exact Hsetup|].
  split; [exact Hingest|].
  split; [exact Ht2|].
  erewrite retrieve_docs_selects; [| exact Hc2 | exact Ht2 | | | ].
  - cbn [rows]. rewrite Hnear. reflexivity.
  - cbn. rewrite He2, length_app. exact Hq.
  - now apply configured_dimension_valid.
  - cbn. repeat constructor; cbn; congruence.
Qed.

(** ** Query on an empty table *)

Lemma append_nil_r (s : string) : s +++ "" = s.
Proof. induction s as [|c s IH]; cbn; congruence. Qed.

Lemma append_assoc (a b c : string) : (a +++ b) +++ c = a +++ (b +++ c).
Proof. induction a as [|x a IH]; cbn; congruence. Qed.

Lemma join_empty_cons (fragment : string) (fragments : list string) :
  PyStr.join "" (fragment :: fragments) = fragment +++ PyStr.join "" fragments.
Proof.
  destruct fragments; cbn; [now rewrite append_nil_r | reflexivity].
Qed.

(** A stream that ends normally: every fragment is written as it arrives and
    the accumulated answer is the concatenation of all of them. *)
Lemma consume_whole_stream (fragments : list string) (acc : string) (w : world) :
  consume fragments None acc w =
    (Return (acc +++ PyStr.join "" fragments),
     mkWorld (pg_unreachable w) (pg_vector_extension w) (pg_documents w)
             (conn_state w) (pg_log w) (embed_log w) (generate_log w)
             (stdout w ++ fragments)).
Proof.
  revert acc w. induction fragments as [|f rest IH]; intros acc w.
  - cbn. rewrite append_nil_r, app_nil_r. now destruct w.
  - cbn [consume]. unfold print_end, modify. unfold bind at 1.
    rewrite IH, join_empty_cons, append_assoc, append_nil_r. cbn.
    rewrite <- app_assoc. reflexivity.
Qed.

(** The query on an empty table, from start to end. *)
Lemma run_rag_query_on_empty_table
        (conn : connection) (user_query : string) (q : list scalar)
        (fragments : list string) (t : table) (w : world) :
  conn_state w = Open -> pg_documents w = Some t -> rows t = [] ->
  ollama_embeddings (length (embed_log w)) EMBEDDING_MODEL user_query = Embedding q ->
  valid_vector q = true ->
  ollama_generate GENERATION_MODEL (rag_prompt "" user_query) = Stream fragments None ->
  fst (retrieve_docs conn user_query w) = Return []
  /\ PyStr.join " " [] = ""
  /\ run_rag_query conn user_query w =
       (Return (Some (PyStr.join "" fragments)),
        mkWorld (pg_unreachable w) (pg_vector_extension w) (Some t) Open
                (pg_log w ++ [SelectNearest q 3]) (embed_log w ++ [user_query])
                (generate_log w ++ [rag_prompt "" user_query])
                (stdout w ++
                   [(PyStr.nl +++ "--- Processing user query: '" +++ user_query +++ "' ---") +++ PyStr.nl;
                    PyStr.nl +++ "--- Retrieved the following relevant chunks from the database ---" +++ PyStr.nl;
                    PyStr.nl +++ "--- Generating response with Gemma 3:270M ---" +++ PyStr.nl;
                    "Response:" +++ PyStr.nl]
                   ++ fragments
                   ++ [PyStr.nl +++ PyStr.nl +++ "--- RAG process complete ---" +++ PyStr.nl])).
Proof.
  intros Hc Ht Hrows Hq Hvalid Hgen.
  assert (Hret : forall w0,
             conn_state w0 = Open -> pg_documents w0 = Some t ->
             embed_log w0 = embed_log w ->
             retrieve_docs conn user_query w0 =
               (Return [], log_statement (SelectNearest q 3) (log_embed user_query w0))).
  { intros w0 Hc0 Ht0 He0.
    rewrite (retrieve_docs_selects conn user_query w0 t q Hc0 Ht0);
      [| now rewrite He0 | assumption | rewrite Hrows; constructor].
    rewrite Hrows. reflexivity. }
  split; [now rewrite (Hret w Hc Ht eq_refl)|].
  split; [reflexivity|].
  unfold run_rag_query, try_except, print at 1, modify. unfold bind at 1.
  unfold bind at 1.
  match goal with
  | |- context [retrieve_docs conn user_query ?w0] => rewrite (Hret w0 Hc Ht eq_refl)
  end.
  unfold print at 1, modify. unfold bind at 1.
  cbn [print_docs]. unfold ret at 1. unfold bind at 1.
  cbn [PyStr.join String.concat].
  unfold print at 1, modify. unfold bind at 1.
  unfold generate. unfold bind at 1. rewrite Hgen.
  unfold print at 1, modify. unfold bind at 1.
  cbn [fst snd]. unfold bind at 1. rewrite consume_whole_stream.
  clear Hret Hq Hgen. destruct w as [u x d c pl el gl out].
  cbn in Hc, Ht. subst c d.
  cbv beta iota delta
      [print modify ret bind write_stdout log_statement log_embed log_generate
       pg_unreachable pg_vector_extension pg_documents conn_state pg_log
       embed_log generate_log stdout].
  rewrite <- !app_assoc. reflexivity.
Qed.

(** C10: on an empty table, when the question is embedded into a vector the
    database accepts and the generation stream ends normally,
    [run_rag_query] retrieves no record, builds the empty context, calls the
    generation service once with the text of the prompt template of line
    231 around the empty context and the question, and returns the
    concatenation, in order, of the streamed fragments. *)
Theorem query_on_empty_table_still_answers
        (conn : connection) (user_query : string) (q : list scalar)
        (fragments : list string) (t : table) (w : world) :
  conn_state w = Open -> pg_documents w = Some t -> rows t = [] ->
  ollama_embeddings (length (embed_log w)) EMBEDDING_MODEL user_query = Embedding q ->
  valid_vector q = true ->
  ollama_generate GENERATION_MODEL
    ("Based on the provided context, answer the question clearly and helpfully. Use only information from the context."
       +++ PyStr.nl +++ PyStr.nl +++ "Context: "
       +++ PyStr.nl +++ PyStr.nl +++ "Question: " +++ user_query
       +++ PyStr.nl +++ PyStr.nl +++ "Answer:")
    = Stream fragments None ->
  fst (retrieve_docs conn user_query w) = Return []
  /\ PyStr.join " " [] = ""
  /\ run_rag_query conn user_query w =
       (Return (Some (PyStr.join "" fragments)),
        mkWorld (pg_unreachable w) (pg_vector_extension w) (Some t) Open
                (pg_log w ++ [SelectNearest q 3]) (embed_log w ++ [user_query])
                (generate_log w ++
                   [("Based on the provided context, answer the question clearly and helpfully. Use only information from the context."
                       +++ PyStr.nl +++ PyStr.nl +++ "Context: "
                       +++ PyStr.nl +++ PyStr.nl +++ "Question: " +++ user_query
                       +++ PyStr.nl +++ PyStr.nl +++ "Answer:")])
                (stdout w ++
                   [(PyStr.nl +++ "--- Processing user query: '" +++ user_query +++ "' ---") +++ PyStr.nl;
                    PyStr.nl +++ "--- Retrieved the following relevant chunks from the database ---" +++ PyStr.nl;
                    PyStr.nl +++ "--- Generating response with Gemma 3:270M ---" +++ PyStr.nl;
                    "Response:" +++ PyStr.nl]
                   ++ fragments
                   ++ [PyStr.nl +++ PyStr.nl +++ "--- RAG process complete ---" +++ PyStr.nl])).
Proof.
  exact (run_rag_query_on_empty_table conn user_query q fragments t w).
Qed.

(** * Further properties of the script *)

(** ** Chunking (lines 150-151) *)

(** Occurrences of a character in a string. *)
Fixpoint count_char (c : ascii) (s : string) : nat :=
  match s with
  | EmptyString => 0
  | String d s' => (if Ascii.eqb d c then 1 else 0) + count_char c s'
  end.

(** Every character of [s] is white space or a full stop. *)
Fixpoint blank (s : string) : bool :=
  match s with
  | EmptyString => true
  | String c s' => (PyStr.isspace c || Ascii.eqb c "."%char) && blank s'
  end.

Lemma split_length (sep : ascii) (s : string) :
  length (PyStr.split sep s) = S (count_char sep s).
Proof.
  induction s as [|c s IH]; [reflexivity|].
  simpl. destruct (Ascii.eqb c sep).
  - simpl. now rewrite IH.
  - destruct (PyStr.split sep s); simpl in *; [discriminate | exact IH].
Qed.

Lemma split_app_sep (sep : ascii) (a b : string) :
  PyStr.split sep (a +++ String sep b) = PyStr.split sep a ++ PyStr.split sep b.
Proof.
  induction a as [|c a IH].
  - simpl. now rewrite Ascii.eqb_refl.
  - simpl. destruct (Ascii.eqb c sep).
    + now rewrite IH.
    + rewrite IH. pose proof (split_nonempty sep a) as Hne.
      destruct (PyStr.split sep a); [congruence | reflexivity].
Qed.

Lemma split_without_sep (sep : ascii) (s : string) :
  PyStr.mem sep s = false -> PyStr.split sep s = [s].
Proof.
  induction s as [|c s IH]; [reflexivity|].
  simpl. intros H. apply orb_false_iff in H. destruct H as [Hc Hs].
  rewrite Hc, (IH Hs). reflexivity.
Qed.

Lemma all_space_app (a b : string) :
  PyStr.all_space (a +++ b) = PyStr.all_space a && PyStr.all_space b.
Proof.
  induction a as [|c a IH]; [reflexivity|].
  simpl. now rewrite IH, andb_assoc.
Qed.

Lemma rstrip_all_space (s : string) :
  PyStr.all_space s = true -> PyStr.rstrip s = "".
Proof.
  induction s as [|c s IH]; [reflexivity|].
  simpl. intros H. apply andb_true_iff in H. destruct H as [Hc Hs].
  now rewrite (IH Hs), Hc.
Qed.

(** A fragment strips to nothing exactly when it is made of white space. *)
Lemma strip_empty_iff (s : string) :
  PyStr.truthy (PyStr.strip s) = false <-> PyStr.all_space s = true.
Proof.
  split.
  - intros H. destruct (strip_decompose s) as [l [r [Hs [Hl Hr]]]].
    destruct (PyStr.strip s); [|discriminate].
    rewrite Hs, !all_space_app, Hl, Hr. reflexivity.
  - intros H. unfold PyStr.strip. now rewrite (rstrip_all_space s H).
Qed.

Lemma fragments_all_space_iff (s : string) :
  forallb PyStr.all_space (PyStr.split "."%char s) = blank s.
Proof.
  induction s as [|c s IH]; [reflexivity|].
  simpl. destruct (Ascii.eqb c "."%char).
  - simpl. rewrite IH, orb_true_r. reflexivity.
  - rewrite orb_false_r, <- IH.
    pose proof (split_nonempty "."%char s) as Hne.
    destruct (PyStr.split "."%char s) as [|f fs]; [congruence|].
    simpl. now rewrite andb_assoc.
Qed.

Lemma rstrip_fixed (s : string) (b : ascii) :
  PyStr.last_char s = Some b -> PyStr.isspace b = false -> PyStr.rstrip s = s.
Proof.
  induction s as [|c s IH]; [discriminate|].
  destruct s as [|d s].
  - simpl. intros [= ->] ->. reflexivity.
  - intros Hlast Hb. rewrite last_char_cons in Hlast by discriminate.
    change (PyStr.rstrip (String c (String d s)))
      with (match PyStr.rstrip (String d s) with
            | EmptyString => if PyStr.isspace c then EmptyString else String c EmptyString
            | r => String c r
            end).
    now rewrite (IH Hlast Hb).
Qed.

(** Stripping leaves a non-empty trimmed string as it is. *)
Lemma strip_fixed (s : string) :
  s <> "" -> PyStr.trimmed s = true -> PyStr.strip s = s.
Proof.
  intros Hne Ht. unfold PyStr.trimmed in Ht.
  destruct s as [|c s]; [congruence|].
  cbn [PyStr.first_char] in Ht.
  destruct (PyStr.last_char (String c s)) as [b|] eqn:Hlast.
  - apply andb_true_iff in Ht. destruct Ht as [Hc Hb].
    apply negb_true_iff in Hc, Hb.
    unfold PyStr.strip. rewrite (rstrip_fixed _ b Hlast Hb).
    simpl. now rewrite Hc.
  - exfalso. clear -Hlast. revert c Hlast.
    induction s as [|d s IH]; intros c H; [discriminate|].
    rewrite last_char_cons in H by discriminate. eauto.
Qed.

(** X2: a full stop between two texts separates their chunks: the chunks of
    [a + "." + b] are the chunks of [a] followed by the chunks of [b]. *)
Theorem chunks_of_joined_texts (a b : string) :
  chunk_document (a +++ "." +++ b) = chunk_document a ++ chunk_document b.
Proof.
  unfold chunk_document.
  change (a +++ "." +++ b) with (a +++ String "."%char b).
  now rewrite split_app_sep, filter_app, map_app.
Qed.

(** X3: a document has one fragment more than it has full stops, so it is
    cut into at most that many chunks. *)
Theorem chunk_count_bounded_by_full_stops (document : string) :
  length (PyStr.split "."%char document) = S (count_char "."%char document)
  /\ length (chunk_document document) <= S (count_char "."%char document).
Proof.
  split; [apply split_length|].
  unfold chunk_document. rewrite length_map, <- (split_length "."%char document).
  apply filter_length_le.
Qed.

(** X4: a document yields no chunk exactly when it consists of white space
    and full stops only. *)
Theorem no_chunk_iff_blank (document : string) :
  chunk_document document = [] <-> blank document = true.
Proof.
  rewrite <- fragments_all_space_iff. unfold chunk_document.
  induction (PyStr.split "."%char document) as [|f fs IH]; simpl.
  - split; reflexivity.
  - destruct (PyStr.truthy (PyStr.strip f)) eqn:E; simpl.
    + split; [discriminate|]. intros H. apply andb_true_iff in H.
      destruct H as [H _]. apply strip_empty_iff in H. congruence.
    + apply strip_empty_iff in E. rewrite E. exact IH.
Qed.

(** X5: chunking a chunk again gives the chunk back: every chunk of a
    document is a document with that single chunk. *)
Theorem chunks_are_their_own_chunk (document : string) :
  Forall (fun chunk => chunk_document chunk = [chunk]) (chunk_document document).
Proof.
  eapply Forall_impl; [|apply chunk_document_chunks]. cbv beta.
  intros chunk [Hne [Htrim [Hdot _]]].
  unfold chunk_document. rewrite (split_without_sep _ _ Hdot).
  cbn [filter]. rewrite (strip_fixed chunk Hne Htrim).
  destruct chunk as [|c rest]; [congruence|].
  cbn [PyStr.truthy map]. now rewrite (strip_fixed _ Hne Htrim).
Qed.

(** ** Initialization (lines 81-129) *)


(** ** Ingestion (lines 156-183) *)

(** The table refuses the vector: the chunk is not stored and the loop body
    returns [False]. *)
Lemma ingest_chunk_refused (conn : connection) (chunk : string)
      (v : list scalar) (t : table) (w : world) :
  conn_state w = Open -> pg_documents w = Some t ->
  ollama_embeddings (length (embed_log w)) EMBEDDING_MODEL chunk = Embedding v ->
  valid_vector v && Nat.eqb (length v) (vector_dim t) = false ->
  ingest_chunk conn chunk w =
    (Return false,
     mkWorld (pg_unreachable w) (pg_vector_extension w) (Some t) Open
             (pg_log w ++ [InsertDocument chunk v]) (embed_log w ++ [chunk])
             (generate_log w)
             (stdout w ++
                [("Processing chunk: '" +++ PyStr.take 50 chunk +++ "...'") +++ PyStr.nl;
                 "An unexpected error occurred: expected another number of dimensions"
                   +++ PyStr.nl])).
Proof.
  intros Hc Ht Hv Hno.
  unfold ingest_chunk, embeddings, insert_document, ingest_handler. step.
  rewrite Hv, Hc. cbn. rewrite Ht, Hno. cbn.
  rewrite <- !app_assoc. reflexivity.
Qed.

(** The loop over a concatenation: the second list is processed only when
    the first went through. *)
Lemma ingest_chunks_app (conn : connection) (before rest : list string) (w : world) :
  ingest_chunks conn (before ++ rest) w =
    match ingest_chunks conn before w with
    | (Return true, w') => ingest_chunks conn rest w'
    | other => other
    end.
Proof.
  revert w. induction before as [|b before IH]; intros w; [reflexivity|].
  cbn [app ingest_chunks]. unfold bind.
  destruct (ingest_chunk conn b w) as [[[|]|e] w1]; [apply IH | reflexivity | reflexivity].
Qed.

(** Whatever the embedding service answers, the loop returns, and what it
    has added to the table is one row for each of the first [k] chunks. *)
Lemma ingest_chunks_prefix (conn : connection) (chunks : list string) :
  forall (t : table) (w : world),
    conn_state w = Open -> pg_documents w = Some t ->
    exists b k w' rs,
      ingest_chunks conn chunks w = (Return b, w')
      /\ conn_state w' = Open
      /\ pg_documents w' =
           Some (mkTable (vector_dim t) (rows t ++ rs) (next_id t + Z.of_nat k)%Z)
      /\ map content rs = firstn k chunks
      /\ k <= length chunks
      /\ (b = true <-> k = length chunks)
      /\ embed_log w' = embed_log w ++ firstn (if b then k else S k) chunks
      /\ generate_log w' = generate_log w.
Proof.
  induction chunks as [|chunk rest IH]; intros t w Hc Ht.
  - exists true, 0, w, []. cbn. rewrite !app_nil_r, Z.add_0_r.
    destruct t. repeat split; auto.
  - cbn [ingest_chunks]. unfold bind at 1.
    destruct (ollama_embeddings (length (embed_log w)) EMBEDDING_MODEL chunk)
      as [v|e] eqn:Hv.
    + destruct (valid_vector v && Nat.eqb (length v) (vector_dim t)) eqn:Hok.
      * apply andb_true_iff in Hok. destruct Hok as [Hvalid Hlen].
        apply Nat.eqb_eq in Hlen.
        rewrite (ingest_chunk_stored conn chunk v t w Hc Ht Hv Hvalid Hlen).
        cbv beta iota.
        match goal with
        | |- context [ingest_chunks conn rest ?w1] =>
            destruct (IH (mkTable (vector_dim t)
                                  (rows t ++ [mkRow (next_id t) chunk v])
                                  (next_id t + 1)%Z) w1 eq_refl eq_refl)
              as [b [k [w' [rs [Hrun [Hc' [Ht' [Hrs [Hk [Hb [He' Hg']]]]]]]]]]]
        end.
        exists b, (S k), w', (mkRow (next_id t) chunk v :: rs).
        cbn in *. rewrite Hrun, Hc', Ht', He', Hg', Hrs, <- !app_assoc. cbn.
        replace (next_id t + 1 + Z.of_nat k)%Z
          with (next_id t + Z.pos (Pos.of_succ_nat k))%Z by lia.
        repeat split; try lia.
        -- intros H. apply Hb in H. congruence.
        -- intros [= H]. now apply Hb.
        -- destruct b; reflexivity.
      * rewrite (ingest_chunk_refused conn chunk v t w Hc Ht Hv Hok).
        eexists false, 0, _, []. split; [reflexivity|]. cbn.
        rewrite app_nil_r, Z.add_0_r. destruct t. cbn.
        repeat split; try discriminate; lia.
    + rewrite (ingest_chunk_embedding_fails conn chunk e w Hv).
      eexists false, 0, _, []. split; [reflexivity|]. cbn.
      rewrite Ht, app_nil_r, Z.add_0_r. destruct t. cbn.
      repeat split; try discriminate; try assumption; lia.
Qed.

(** X7: on an open connection and an existing table [ingest_data] never
    raises, whatever the embedding service does: it leaves the rows that were
    there, adds one row for each of the first [k] chunks of the document, in
    order, and returns [True] exactly when these are all the chunks.  It
    asks for the embeddings of the stored chunks, and of the one it stopped
    at, and of no other. *)
Theorem ingest_stores_a_prefix_of_the_chunks
        (conn : connection) (document : string) (t : table) (w : world) :
  conn_state w = Open -> pg_documents w = Some t ->
  exists b k w' t' added,
    ingest_document conn document w = (Return b, w')
    /\ conn_state w' = Open
    /\ pg_documents w' = Some t'
    /\ rows t' = rows t ++ added
    /\ map content added = firstn k (chunk_document document)
    /\ k <= length (chunk_document document)
    /\ (b = true <-> k = length (chunk_document document))
    /\ embed_log w' = embed_log w
                        ++ firstn (if b then k else S k) (chunk_document document)
    /\ generate_log w' = generate_log w.
Proof.
  intros Hc Ht. rewrite (ingest_document_loop conn document w Hc).
  match goal with
  | |- context [ingest_chunks conn ?chunks ?w1] =>
      destruct (ingest_chunks_prefix conn chunks t w1 Hc Ht)
        as [b [k [w' [rs [Hrun [Hc' [Ht' [Hrs [Hk [Hb [He' Hg']]]]]]]]]]]
  end.
  rewrite Hrun. exists b, k.
  assert (Hrest : conn_state w' = Open
                  /\ pg_documents w' =
                       Some (mkTable (vector_dim t) (rows t ++ rs)
                                     (next_id t + Z.of_nat k)%Z)
                  /\ rows (mkTable (vector_dim t) (rows t ++ rs)
                                    (next_id t + Z.of_nat k)%Z) = rows t ++ rs
                  /\ map content rs = firstn k (chunk_document document)
                  /\ k <= length (chunk_document document)
                  /\ (b = true <-> k = length (chunk_document document))
                  /\ embed_log w' = embed_log w
                        ++ firstn (if b then k else S k) (chunk_document document)
                  /\ generate_log w' = generate_log w).
  { split; [exact Hc'|]. split; [exact Ht'|]. split; [reflexivity|].
    split; [exact Hrs|]. split; [exact Hk|]. split; [exact Hb|].
    split; [exact He' | exact Hg']. }
  destruct b.
  - eexists. eexists. exists rs. split; [reflexivity|]. exact Hrest.
  - exists w'. eexists. exists rs. split; [reflexivity|]. exact Hrest.
Qed.

(** X8: when the vector returned for a chunk has not the configured
    dimension, the chunks before it having been stored, the insertion is
    attempted and refused, [ingest_data] returns [False], the table holds the
    earlier rows and those of the chunks before, and the later chunks are
    never sent to the embedding service. *)
Theorem ingest_aborts_when_vector_is_refused
        (conn : connection) (document : string) (before after : list string)
        (chunk : string) (vs : list (list scalar)) (v : list scalar) (t : table)
        (w : world) :
  conn_state w = Open -> pg_documents w = Some t ->
  vector_dim t = VECTOR_DIMENSION ->
  chunk_document document = before ++ chunk :: after ->
  embedded_as (length (embed_log w)) before vs ->
  Forall (fun v => length v = VECTOR_DIMENSION) vs ->
  ollama_embeddings (length (embed_log w) + length before) EMBEDDING_MODEL chunk
    = Embedding v ->
  length v <> VECTOR_DIMENSION ->
  exists w' t',
    ingest_document conn document w = (Return false, w')
    /\ embed_log w' = embed_log w ++ before ++ [chunk]
    /\ pg_log w' = pg_log w ++ chunk_inserts before vs ++ [InsertDocument chunk v]
    /\ pg_documents w' = Some t'
    /\ rows t' = rows t ++ chunk_records (next_id t) before vs
    /\ map content (chunk_records (next_id t) before vs) = before.
Proof.
  intros Hc Ht Hdim Hchunks Hemb Hvs Hv Hbad.
  pose proof (embedded_as_length _ _ _ Hemb) as Hlen.
  rewrite (ingest_document_loop conn document w Hc), Hchunks, ingest_chunks_app.
  match goal with
  | |- context [ingest_chunks conn before ?w1] =>
      destruct (ingest_chunks_stored conn before vs t w1 Hc Ht Hemb
                  (configured_vectors_accepted t vs Hdim Hvs))
        as [w2 [Hrun [Hc2 [Ht2 [He2 [Hl2 _]]]]]]
  end.
  rewrite Hrun. cbn [ingest_chunks]. unfold bind at 1.
  cbn in He2, Hl2.
  erewrite (ingest_chunk_refused conn chunk v _ w2 Hc2 Ht2).
  - eexists. eexists. split; [reflexivity|]. cbn.
    rewrite He2, Hl2, <- !app_assoc.
    repeat split. now apply chunk_records_content.
  - rewrite He2, length_app. exact Hv.
  - cbn. rewrite Hdim. apply andb_false_iff. right. now apply Nat.eqb_neq.
Qed.

(** ** The query (lines 186-257) *)

(** The lines printed for the retrieved chunks, numbered from [i + 1]. *)
Fixpoint chunk_lines (i : nat) (docs : list string) : list string :=
  match docs with
  | [] => []
  | doc :: rest =>
      (("Chunk " +++ PyStr.str_nat (i + 1) +++ ": " +++ doc) +++ PyStr.nl)
        :: chunk_lines (S i) rest
  end.

(** What the [except] clauses of [run_rag_query] print for an exception. *)
Definition query_report (e : exn) : list string :=
  match exn_kind e with
  | RequestError | ResponseError =>
      [PyStr.nl +++ "Error: Could not connect to Ollama. Please ensure the Docker container is running and the model is pulled." +++ PyStr.nl;
       "Details: " +++ exn_text e +++ PyStr.nl]
  | _ => ["An unexpected error occurred during the RAG process: " +++ exn_text e +++ PyStr.nl]
  end.

Lemma print_docs_prints (docs : list string) :
  forall (i : nat) (w : world),
    print_docs i docs w =
      (Return tt,
       mkWorld (pg_unreachable w) (pg_vector_extension w) (pg_documents w)
               (conn_state w) (pg_log w) (embed_log w) (generate_log w)
               (stdout w ++ chunk_lines i docs)).
Proof.
  induction docs as [|doc rest IH]; intros i w.
  - cbn. rewrite app_nil_r. now destruct w.
  - cbn [print_docs chunk_lines]. unfold print, modify. unfold bind at 1.
    rewrite IH. cbn. rewrite <- app_assoc. reflexivity.
Qed.

(** A stream that breaks: the fragments received so far are written, then
    the exception is raised. *)
Lemma consume_failing_stream (fragments : list string) (e : exn) :
  forall (acc : string) (w : world),
    consume fragments (Some e) acc w =
      (Raise e,
       mkWorld (pg_unreachable w) (pg_vector_extension w) (pg_documents w)
               (conn_state w) (pg_log w) (embed_log w) (generate_log w)
               (stdout w ++ fragments)).
Proof.
  induction fragments as [|f rest IH]; intros acc w.
  - cbn. rewrite app_nil_r. now destruct w.
  - cbn [consume]. unfold print_end, modify. unfold bind at 1.
    rewrite IH, append_nil_r. cbn. rewrite <- app_assoc. reflexivity.
Qed.

(** The handler of [run_rag_query]: it prints its report and yields [None]. *)
Lemma query_handler_reports (e : exn) :
  exists clause,
    query_handler e = Some clause
    /\ forall w,
         clause w =
           (Return None,
            mkWorld (pg_unreachable w) (pg_vector_extension w) (pg_documents w)
                    (conn_state w) (pg_log w) (embed_log w) (generate_log w)
                    (stdout w ++ query_report e)).
Proof.
  unfold query_handler, query_report.
  destruct (exn_kind e); eexists; (split; [reflexivity|]); intros w;
    unfold print, modify, bind, ret, write_stdout; cbn;
    rewrite <- ?app_assoc; reflexivity.
Qed.

(** Reduction of the monad's operations and of the world's fields, leaving
    the services, the retrieval and the loops for rewriting. *)
Ltac run_world :=
  cbv beta iota zeta delta
      [bind ret raise modify try_except print print_end sleep close
       write_stdout set_conn_state set_documents log_statement log_embed
       log_generate generate
       pg_unreachable pg_vector_extension pg_documents conn_state pg_log
       embed_log generate_log stdout fst snd].

(** Lists of console lines up to the associativity of [++]. *)
Ltac same_lines :=
  repeat (progress (cbn [app]; rewrite <- ?app_assoc)); reflexivity.

(** [run_rag_query], once the retrieval has returned [docs]. *)
Lemma run_rag_query_after_retrieval
      (conn : connection) (user_query : string) (docs : list string)
      (w w1 : world) :
  retrieve_docs conn user_query
    (write_stdout ((PyStr.nl +++ "--- Processing user query: '" +++ user_query +++ "' ---") +++ PyStr.nl) w)
    = (Return docs, w1) ->
  let prompt := rag_prompt (PyStr.join " " docs) user_query in
  let w2 :=
    mkWorld (pg_unreachable w1) (pg_vector_extension w1) (pg_documents w1)
            (conn_state w1) (pg_log w1) (embed_log w1) (generate_log w1 ++ [prompt])
            (stdout w1 ++
               (PyStr.nl +++ "--- Retrieved the following relevant chunks from the database ---" +++ PyStr.nl)
               :: chunk_lines 0 docs
               ++ [PyStr.nl +++ "--- Generating response with Gemma 3:270M ---" +++ PyStr.nl]) in
  let report out e :=
    (Return None,
     mkWorld (pg_unreachable w2) (pg_vector_extension w2) (pg_documents w2)
             (conn_state w2) (pg_log w2) (embed_log w2) (generate_log w2)
             (stdout w2 ++ out ++ query_report e)) in
  run_rag_query conn user_query w =
    match ollama_generate GENERATION_MODEL prompt with
    | GenerateRaise e => report [] e
    | Stream fragments (Some e) => report (("Response:" +++ PyStr.nl) :: fragments) e
    | Stream fragments None =>
        (Return (Some (PyStr.join "" fragments)),
         mkWorld (pg_unreachable w2) (pg_vector_extension w2) (pg_documents w2)
                 (conn_state w2) (pg_log w2) (embed_log w2) (generate_log w2)
                 (stdout w2 ++ ("Response:" +++ PyStr.nl) :: fragments
                    ++ [PyStr.nl +++ PyStr.nl +++ "--- RAG process complete ---" +++ PyStr.nl]))
    end.
Proof.
  intros Hret prompt w2 report.
  unfold run_rag_query, try_except, print at 1, modify. unfold bind at 1.
  unfold bind at 1. rewrite Hret.
  unfold print at 1, modify. unfold bind at 1.
  unfold bind at 1. rewrite print_docs_prints.
  unfold print at 1, modify. unfold bind at 1.
  unfold generate. unfold bind at 1. fold prompt.
  destruct (ollama_generate GENERATION_MODEL prompt) as [e|fragments [e|]].
  - destruct (query_handler_reports e) as [clause [-> Hclause]].
    rewrite Hclause. subst report w2. destruct w1. run_world.
    same_lines.
  - unfold print at 1, modify. unfold bind at 1. cbn [fst snd].
    unfold bind at 1. rewrite consume_failing_stream.
    destruct (query_handler_reports e) as [clause [-> Hclause]].
    rewrite Hclause. subst report w2. destruct w1. run_world.
    same_lines.
  - unfold print at 1, modify. unfold bind at 1. cbn [fst snd].
    unfold bind at 1. rewrite consume_whole_stream.
    subst report w2. destruct w1. run_world.
    same_lines.
Qed.

(** [run_rag_query], when the retrieval raises: the handler reports the
    exception and [None] is returned. *)
Lemma run_rag_query_when_retrieval_raises
      (conn : connection) (user_query : string) (e : exn) (w w1 : world) :
  retrieve_docs conn user_query
    (write_stdout ((PyStr.nl +++ "--- Processing user query: '" +++ user_query +++ "' ---") +++ PyStr.nl) w)
    = (Raise e, w1) ->
  run_rag_query conn user_query w =
    (Return None,
     mkWorld (pg_unreachable w1) (pg_vector_extension w1) (pg_documents w1)
             (conn_state w1) (pg_log w1) (embed_log w1) (generate_log w1)
             (stdout w1 ++ query_report e)).
Proof.
  intros Hret.
  unfold run_rag_query, try_except, print at 1, modify. unfold bind at 1.
  unfold bind at 1. rewrite Hret.
  destruct (query_handler_reports e) as [clause [-> Hclause]].
  apply Hclause.
Qed.

Lemma forallb_width_mismatch (q : list scalar) (l : list row) :
  Exists (fun r => length (embedding r) <> length q) l ->
  forallb (fun r => Nat.eqb (length (embedding r)) (length q)) l = false.
Proof.
  induction 1 as [r l H | r l _ IH]; simpl.
  - apply Nat.eqb_neq in H. now rewrite H.
  - rewrite IH. apply andb_false_r.
Qed.

(** The database refuses the query vector: [retrieve_docs] raises a data
    exception after the statement was sent. *)
Lemma retrieve_docs_refused (conn : connection) (user_query : string)
      (w : world) (t : table) (q : list scalar) :
  conn_state w = Open -> pg_documents w = Some t ->
  ollama_embeddings (length (embed_log w)) EMBEDDING_MODEL user_query = Embedding q ->
  valid_vector q = false
  \/ Exists (fun r => length (embedding r) <> length q) (rows t) ->
  exists text,
    retrieve_docs conn user_query w =
      (Raise (mkExn DataException text),
       log_statement (SelectNearest q 3) (log_embed user_query w)).
Proof.
  intros Hc Ht Hq Hbad.
  unfold retrieve_docs, embeddings, select_nearest. step.
  rewrite Hq, Hc. cbn. rewrite Ht.
  destruct (valid_vector q) eqn:Hvalid; cbn.
  - destruct Hbad as [Hbad|Hbad]; [discriminate|].
    rewrite (forallb_width_mismatch q (rows t) Hbad). eexists. reflexivity.
  - eexists. reflexivity.
Qed.

(** The query on its successful path, from start to end. *)
Lemma run_rag_query_answers
        (conn : connection) (user_query : string) (q : list scalar)
        (fragments : list string) (t : table) (w : world) :
  conn_state w = Open -> pg_documents w = Some t ->
  ollama_embeddings (length (embed_log w)) EMBEDDING_MODEL user_query = Embedding q ->
  valid_vector q = true ->
  Forall (fun r => length (embedding r) = length q) (rows t) ->
  let docs := map content (nearest q 3 (rows t)) in
  let prompt := rag_prompt (PyStr.join " " docs) user_query in
  ollama_generate GENERATION_MODEL prompt = Stream fragments None ->
  run_rag_query conn user_query w =
    (Return (Some (PyStr.join "" fragments)),
     mkWorld (pg_unreachable w) (pg_vector_extension w) (Some t) Open
             (pg_log w ++ [SelectNearest q 3]) (embed_log w ++ [user_query])
             (generate_log w ++ [prompt])
             (stdout w ++
                [(PyStr.nl +++ "--- Processing user query: '" +++ user_query +++ "' ---") +++ PyStr.nl;
                 PyStr.nl +++ "--- Retrieved the following relevant chunks from the database ---" +++ PyStr.nl]
                ++ chunk_lines 0 docs
                ++ [PyStr.nl +++ "--- Generating response with Gemma 3:270M ---" +++ PyStr.nl;
                    "Response:" +++ PyStr.nl]
                ++ fragments
                ++ [PyStr.nl +++ PyStr.nl +++ "--- RAG process complete ---" +++ PyStr.nl])).
Proof.
  intros Hc Ht Hq Hvalid Hwidth docs prompt Hgen.
  erewrite run_rag_query_after_retrieval;
    [| apply (retrieve_docs_selects conn user_query _ t q); assumption].
  cbv zeta. fold docs. fold prompt. rewrite Hgen.
  destruct w as [u x d c pl el gl out]. cbn in Hc, Ht. subst c d.
  run_world. same_lines.
Qed.

(** X9: when the question is embedded into a vector the table's rows can be
    compared with and the generation stream ends normally, [run_rag_query]
    sends one [SELECT], prints the retrieved chunks numbered from 1, calls
    the generation service once with the prompt template around the chunks
    joined by single spaces and the question, writes every fragment as it
    arrives and returns their concatenation. *)
Theorem query_answers_from_nearest_chunks
        (conn : connection) (user_query : string) (q : list scalar)
        (fragments : list string) (t : table) (w : world) :
  conn_state w = Open -> pg_documents w = Some t ->
  ollama_embeddings (length (embed_log w)) EMBEDDING_MODEL user_query = Embedding q ->
  valid_vector q = true ->
  Forall (fun r => length (embedding r) = length q) (rows t) ->
  let docs := map content (nearest q 3 (rows t)) in
  let prompt :=
    "Based on the provided context, answer the question clearly and helpfully. Use only information from the context."
       +++ PyStr.nl +++ PyStr.nl +++ "Context: " +++ PyStr.join " " docs
       +++ PyStr.nl +++ PyStr.nl +++ "Question: " +++ user_query
       +++ PyStr.nl +++ PyStr.nl +++ "Answer:" in
  ollama_generate GENERATION_MODEL prompt = Stream fragments None ->
  run_rag_query conn user_query w =
    (Return (Some (PyStr.join "" fragments)),
     mkWorld (pg_unreachable w) (pg_vector_extension w) (Some t) Open
             (pg_log w ++ [SelectNearest q 3]) (embed_log w ++ [user_query])
             (generate_log w ++ [prompt])
             (stdout w ++
                [(PyStr.nl +++ "--- Processing user query: '" +++ user_query +++ "' ---") +++ PyStr.nl;
                 PyStr.nl +++ "--- Retrieved the following relevant chunks from the database ---" +++ PyStr.nl]
                ++ chunk_lines 0 docs
                ++ [PyStr.nl +++ "--- Generating response with Gemma 3:270M ---" +++ PyStr.nl;
                    "Response:" +++ PyStr.nl]
                ++ fragments
                ++ [PyStr.nl +++ PyStr.nl +++ "--- RAG process complete ---" +++ PyStr.nl])).
Proof.
  exact (run_rag_query_answers conn user_query q fragments t w).
Qed.

(** X10: [run_rag_query] never raises and only reads: whatever the services
    and the database answer, it returns (an answer or [None]) and leaves the
    server, the table and the connection as they were. *)
Theorem query_never_raises_and_only_reads
        (conn : connection) (user_query : string) (w : world) :
  exists answer w',
    run_rag_query conn user_query w = (Return answer, w')
    /\ pg_unreachable w' = pg_unreachable w
    /\ pg_vector_extension w' = pg_vector_extension w
    /\ pg_documents w' = pg_documents w
    /\ conn_state w' = conn_state w.
Proof.
  pose (I := fun w' : world =>
               pg_unreachable w' = pg_unreachable w
               /\ pg_vector_extension w' = pg_vector_extension w
               /\ pg_documents w' = pg_documents w
               /\ conn_state w' = conn_state w).
  assert (Hblind : log_blind I) by (split; intros ? w0 H; exact H).
  assert (Hstart : I w) by (repeat split).
  pose proof (run_rag_query_keeps I Hblind conn user_query w Hstart) as H.
  destruct (run_rag_query conn user_query w) as [[answer|e] w']; [|contradiction].
  exists answer, w'. split; [reflexivity | exact H].
Qed.

(** X11: when the question cannot be embedded, [run_rag_query] reports the
    exception and returns [None] without sending any statement to the
    database and without calling the generation service. *)
Theorem query_returns_none_when_embedding_fails
        (conn : connection) (user_query : string) (e : exn) (w : world) :
  ollama_embeddings (length (embed_log w)) EMBEDDING_MODEL user_query = EmbedRaise e ->
  run_rag_query conn user_query w =
    (Return None,
     mkWorld (pg_unreachable w) (pg_vector_extension w) (pg_documents w)
             (conn_state w) (pg_log w) (embed_log w ++ [user_query])
             (generate_log w)
             (stdout w ++
                ((PyStr.nl +++ "--- Processing user query: '" +++ user_query +++ "' ---") +++ PyStr.nl)
                :: query_report e)).
Proof.
  intros Hq.
  assert (Hret :
            forall w0, embed_log w0 = embed_log w ->
                       retrieve_docs conn user_query w0
                       = (Raise e, log_embed user_query w0)).
  { intros w0 Hlog. unfold retrieve_docs, embeddings. unfold bind at 1.
    rewrite Hlog, Hq. reflexivity. }
  rewrite (run_rag_query_when_retrieval_raises conn user_query e w _
             (Hret (write_stdout _ w) eq_refl)).
  destruct w. run_world. same_lines.
Qed.

(** X12: when the generation fails, at the call or in the middle of the
    stream, [run_rag_query] returns [None]: the fragments already received
    have been written to the console, but no answer is returned. *)
Theorem query_returns_none_when_generation_fails
        (conn : connection) (user_query : string) (q : list scalar)
        (e : exn) (t : table) (w : world) :
  conn_state w = Open -> pg_documents w = Some t ->
  ollama_embeddings (length (embed_log w)) EMBEDDING_MODEL user_query = Embedding q ->
  valid_vector q = true ->
  Forall (fun r => length (embedding r) = length q) (rows t) ->
  let docs := map content (nearest q 3 (rows t)) in
  let prompt := rag_prompt (PyStr.join " " docs) user_query in
  let shown :=
    [(PyStr.nl +++ "--- Processing user query: '" +++ user_query +++ "' ---") +++ PyStr.nl;
     PyStr.nl +++ "--- Retrieved the following relevant chunks from the database ---" +++ PyStr.nl]
      ++ chunk_lines 0 docs
      ++ [PyStr.nl +++ "--- Generating response with Gemma 3:270M ---" +++ PyStr.nl] in
  (ollama_generate GENERATION_MODEL prompt = GenerateRaise e ->
   run_rag_query conn user_query w =
     (Return None,
      mkWorld (pg_unreachable w) (pg_vector_extension w) (Some t) Open
              (pg_log w ++ [SelectNearest q 3]) (embed_log w ++ [user_query])
              (generate_log w ++ [prompt])
              (stdout w ++ shown ++ query_report e)))
  /\ (forall fragments,
         ollama_generate GENERATION_MODEL prompt = Stream fragments (Some e) ->
         run_rag_query conn user_query w =
           (Return None,
            mkWorld (pg_unreachable w) (pg_vector_extension w) (Some t) Open
                    (pg_log w ++ [SelectNearest q 3]) (embed_log w ++ [user_query])
                    (generate_log w ++ [prompt])
                    (stdout w ++ shown ++ ("Response:" +++ PyStr.nl) :: fragments
                       ++ query_report e))).
Proof.
  intros Hc Ht Hq Hvalid Hwidth docs prompt shown.
  pose proof (run_rag_query_after_retrieval conn user_query docs w _
                (retrieve_docs_selects conn user_query (write_stdout _ w) t q
                   Hc Ht Hq Hvalid Hwidth))
    as Hrun.
  cbv zeta in Hrun. fold prompt in Hrun.
  split; [intros Hgen | intros fragments Hgen]; rewrite Hgen in Hrun;
    rewrite Hrun; subst shown;
    destruct w as [u x d c pl el gl out]; cbn in Hc, Ht; subst c d;
    run_world; same_lines.
Qed.

(** X13: when the database refuses the query vector (it is not a valid
    vector, or some stored vector has another width), [run_rag_query] returns
    [None] after the one [SELECT]; the generation service is not called and
    the table is unchanged. *)
Theorem query_returns_none_when_vector_is_refused
        (conn : connection) (user_query : string) (q : list scalar)
        (t : table) (w : world) :
  conn_state w = Open -> pg_documents w = Some t ->
  ollama_embeddings (length (embed_log w)) EMBEDDING_MODEL user_query = Embedding q ->
  valid_vector q = false
  \/ Exists (fun r => length (embedding r) <> length q) (rows t) ->
  exists w',
    run_rag_query conn user_query w = (Return None, w')
    /\ generate_log w' = generate_log w
    /\ pg_log w' = pg_log w ++ [SelectNearest q 3]
    /\ embed_log w' = embed_log w ++ [user_query]
    /\ pg_documents w' = Some t
    /\ conn_state w' = Open.
Proof.
  intros Hc Ht Hq Hbad.
  match goal with
  | |- context [run_rag_query conn user_query w] =>
      destruct (retrieve_docs_refused conn user_query
                  (write_stdout ((PyStr.nl +++ "--- Processing user query: '" +++ user_query +++ "' ---") +++ PyStr.nl) w)
                  t q Hc Ht Hq Hbad) as [text Hret]
  end.
  rewrite (run_rag_query_when_retrieval_raises conn user_query _ w _ Hret).
  eexists. split; [reflexivity|]. cbn.
  rewrite Ht, Hc. repeat split.
Qed.

(** ** The driver (lines 260-282) *)

(** The console holds [shown] followed by whatever was written since. *)
Definition console_extends (shown : list string) (w : world) : Prop :=
  exists out, stdout w = shown ++ out.

Lemma console_extends_blind (shown : list string) : log_blind (console_extends shown).
Proof.
  split; try (intros ? w H; exact H).
  intros text w [out H]. exists (out ++ [text]).
  cbn. rewrite H. symmetry. apply app_assoc.
Qed.

Lemma insert_document_keeps_console (shown : list string) (conn : connection)
      (chunk : string) (v : list scalar) :
  keeps (console_extends shown) (insert_document conn chunk v).
Proof.
  eapply triple_bind; [apply send_keeps, console_extends_blind|]. intros ?.
  intros w Hw. destruct (pg_documents w); [|assumption].
  destruct (_ && _); assumption.
Qed.

Lemma chunk_records_widths (d : nat) (id : Z) (chunks : list string)
      (vs : list (list scalar)) :
  Forall (fun v => length v = d) vs ->
  Forall (fun r => length (embedding r) = d) (chunk_records id chunks vs).
Proof.
  intros H. revert id chunks.
  induction H as [|v vs Hv _ IH]; intros id [|c cs]; cbn; constructor; auto.
Qed.

(** Finding the fragments of the answer in the lines written to the console. *)
Lemma console_here (fragments rest : list string) :
  exists before after, fragments ++ rest = before ++ fragments ++ after.
Proof. now exists [], rest. Qed.

Lemma console_after_lines (lines written fragments : list string) :
  (exists before after, written = before ++ fragments ++ after) ->
  exists before after, lines ++ written = before ++ fragments ++ after.
Proof.
  intros [before [after ->]]. exists (lines ++ before), after.
  apply app_assoc.
Qed.

Lemma console_after_line (line : string) (written fragments : list string) :
  (exists before after, written = before ++ fragments ++ after) ->
  exists before after, line :: written = before ++ fragments ++ after.
Proof. apply (console_after_lines [line]). Qed.

Lemma console_after_prefix (shown written fragments : list string) :
  (exists before after, written = before ++ fragments ++ after) ->
  exists before after, shown ++ written = shown ++ before ++ fragments ++ after.
Proof. intros [before [after ->]]. now exists before, after. Qed.

(** X14: the whole run on its successful path.  With a reachable server
    that has the extension, every chunk embedded into a vector of the
    configured dimension, the question too, and a generation stream that
    ends normally, [main] returns with the connection closed; the table
    holds one record per chunk, numbered from 1; the embedding service was
    asked for each chunk and then for the question; the generation service
    was called once, with the prompt built from the three nearest chunks;
    and the fragments of the answer are on the console. *)
Theorem pipeline_answers_the_question
        (document question : string) (vs : list (list scalar)) (q : list scalar)
        (fragments : list string) (w : world) :
  pg_unreachable w = None -> pg_vector_extension w = true ->
  let chunks := chunk_document document in
  embedded_as (length (embed_log w)) chunks vs ->
  Forall (fun v => length v = VECTOR_DIMENSION) vs ->
  ollama_embeddings (length (embed_log w) + length chunks) EMBEDDING_MODEL question
    = Embedding q ->
  length q = VECTOR_DIMENSION ->
  let stored := chunk_records 1%Z chunks vs in
  let context := PyStr.join " " (map content (nearest q 3 stored)) in
  let prompt :=
    "Based on the provided context, answer the question clearly and helpfully. Use only information from the context."
       +++ PyStr.nl +++ PyStr.nl +++ "Context: " +++ context
       +++ PyStr.nl +++ PyStr.nl +++ "Question: " +++ question
       +++ PyStr.nl +++ PyStr.nl +++ "Answer:" in
  ollama_generate GENERATION_MODEL prompt = Stream fragments None ->
  exists w',
    run_pipeline document question w = (Return tt, w')
    /\ conn_state w' = Closed
    /\ pg_documents w' =
         Some (mkTable VECTOR_DIMENSION stored (1 + Z.of_nat (length chunks))%Z)
    /\ embed_log w' = embed_log w ++ chunks ++ [question]
    /\ generate_log w' = generate_log w ++ [prompt]
    /\ pg_log w' =
         pg_log w
           ++ [SelectVectorExtension; DropDocuments; CreateDocuments VECTOR_DIMENSION]
           ++ chunk_inserts chunks vs ++ [SelectNearest q 3]
    /\ exists before after, stdout w' = stdout w ++ before ++ fragments ++ after.
Proof.
  intros Hu He chunks Hemb Hdim Hq Hqlen stored context prompt Hgen.
  pose proof (embedded_as_length _ _ _ Hemb) as Hlen.
  rewrite run_pipeline_after_setup.
  match goal with
  | |- context [setup_database ?w0] => rewrite (setup_database_ready w0 Hu He)
  end.
  cbn [pg_log embed_log generate_log stdout write_stdout].
  unfold bind at 1. rewrite ingest_document_loop by reflexivity.
  match goal with
  | |- context [ingest_chunks Conn _ ?w1] =>
      destruct (ingest_chunks_stored Conn chunks vs
                  (mkTable VECTOR_DIMENSION [] 1%Z) w1 eq_refl eq_refl Hemb
                  (configured_vectors_accepted (mkTable VECTOR_DIMENSION [] 1%Z)
                     vs eq_refl Hdim))
        as [w2 [Hrun [Hc2 [Ht2 [He2 [Hl2 Hg2]]]]]];
      pose proof (ingest_chunks_keeps (console_extends (stdout w1))
                    (console_extends_blind _) Conn chunks
                    (insert_document_keeps_console _ Conn) w1
                    (ex_intro _ [] (eq_sym (app_nil_r _)))) as Hout
  end.
  fold chunks. rewrite Hrun in Hout |- *. destruct Hout as [out Hout].
  cbn in Ht2, He2, Hl2, Hg2, Hout. fold stored in Ht2.
  cbn [negb]. unfold sleep, ret. unfold bind at 1. unfold bind at 1.
  match goal with
  | |- context [run_rag_query Conn question ?w3] =>
      erewrite (run_rag_query_answers Conn question q fragments _ w3 Hc2 Ht2)
  end.
  - unfold close, modify. eexists. split; [reflexivity|]. cbn.
    rewrite He2, Hg2, Hl2, Hout, <- !app_assoc.
    split; [reflexivity|]. split; [reflexivity|]. split; [reflexivity|].
    split; [reflexivity|]. split; [reflexivity|].
    apply console_after_prefix. cbn [app].
    repeat first [apply console_here | apply console_after_line
                 | apply console_after_lines].
  - cbn [embed_log write_stdout]. rewrite He2, length_app. exact Hq.
  - now apply configured_dimension_valid.
  - cbn [rows]. rewrite Hqlen. now apply chunk_records_widths.
  - cbn [rows]. exact Hgen.
Qed.

(** X15: the run when ingestion fails.  With a reachable server that has
    the extension, when the embedding request for a chunk fails after the
    chunks before it were stored, [main] closes the connection and returns
    without running the query: the question is never embedded, no [SELECT]
    is sent, the generation service is never called, and the table keeps the
    records stored before the failure. *)
Theorem pipeline_stops_after_failed_ingestion
        (document question : string) (before after : list string) (chunk : string)
        (vs : list (list scalar)) (e : exn) (w : world) :
  pg_unreachable w = None -> pg_vector_extension w = true ->
  chunk_document document = before ++ chunk :: after ->
  embedded_as (length (embed_log w)) before vs ->
  Forall (fun v => length v = VECTOR_DIMENSION) vs ->
  ollama_embeddings (length (embed_log w) + length before) EMBEDDING_MODEL chunk
    = EmbedRaise e ->
  exists w',
    run_pipeline document question w = (Return tt, w')
    /\ conn_state w' = Closed
    /\ generate_log w' = generate_log w
    /\ embed_log w' = embed_log w ++ before ++ [chunk]
    /\ pg_log w' =
         pg_log w
           ++ [SelectVectorExtension; DropDocuments; CreateDocuments VECTOR_DIMENSION]
           ++ chunk_inserts before vs
    /\ pg_documents w' =
         Some (mkTable VECTOR_DIMENSION (chunk_records 1%Z before vs)
                       (1 + Z.of_nat (length before))%Z).
Proof.
  intros Hu He Hchunks Hemb Hdim Hfail.
  rewrite run_pipeline_after_setup.
  match goal with
  | |- context [setup_database ?w0] => rewrite (setup_database_ready w0 Hu He)
  end.
  cbn [pg_log embed_log generate_log stdout write_stdout].
  unfold bind at 1. rewrite ingest_document_loop by reflexivity.
  rewrite Hchunks.
  match goal with
  | |- context [ingest_chunks Conn _ ?w1] =>
      destruct (ingest_chunks_aborted Conn before vs
                  (mkTable VECTOR_DIMENSION [] 1%Z) w1 chunk after e
                  eq_refl eq_refl Hemb
                  (configured_vectors_accepted (mkTable VECTOR_DIMENSION [] 1%Z)
                     vs eq_refl Hdim) Hfail)
        as [w2 [Hrun [Hc2 [Ht2 [He2 [Hl2 Hg2]]]]]]
  end.
  rewrite Hrun. cbn [negb]. unfold close, modify, ret, bind.
  eexists. split; [reflexivity|]. cbn in *.
  rewrite Ht2, He2, Hl2, Hg2, <- !app_assoc. repeat split.
Qed.

(** ** A connection that is not open *)

Lemma retrieve_docs_without_connection (conn : connection) (user_query : string)
      (w : world) :
  conn_state w <> Open ->
  exists e, retrieve_docs conn user_query w = (Raise e, log_embed user_query w).
Proof.
  intros Hc. unfold retrieve_docs, embeddings, cursor, check_connection.
  unfold bind at 1.
  destruct (ollama_embeddings _ _ _) as [q|e]; [|eexists; reflexivity].
  unfold bind at 1. cbn [conn_state log_embed].
  destruct (conn_state w); [eexists; reflexivity | congruence | eexists; reflexivity].
Qed.

(** X16: [ingest_data] opens its cursor outside the [try]: on a connection
    that is not open it raises an [OperationalError] instead of returning
    [False], before any embedding request and any statement. *)
Theorem ingest_raises_without_connection
        (conn : connection) (document : string) (w : world) :
  conn_state w <> Open ->
  exists text w',
    ingest_document conn document w = (Raise (mkExn OperationalError text), w')
    /\ embed_log w' = embed_log w
    /\ pg_log w' = pg_log w
    /\ pg_documents w' = pg_documents w.
Proof.
  intros Hc. unfold ingest_document, print, modify, cursor, check_connection.
  unfold bind at 1. unfold bind at 1. cbn [conn_state write_stdout].
  destruct (conn_state w); [|congruence|];
    eexists; eexists; (split; [reflexivity|]); repeat split.
Qed.

(** X17: [run_rag_query] opens its cursor inside the [try]: on a connection
    that is not open it returns [None], having asked for the embedding of
    the question but sent no statement and not called the generation
    service. *)
Theorem query_returns_none_without_connection
        (conn : connection) (user_query : string) (w : world) :
  conn_state w <> Open ->
  exists w',
    run_rag_query conn user_query w = (Return None, w')
    /\ embed_log w' = embed_log w ++ [user_query]
    /\ pg_log w' = pg_log w
    /\ generate_log w' = generate_log w.
Proof.
  intros Hc.
  destruct (retrieve_docs_without_connection conn user_query
              (write_stdout ((PyStr.nl +++ "--- Processing user query: '" +++ user_query +++ "' ---") +++ PyStr.nl) w)
              Hc) as [e Hret].
  rewrite (run_rag_query_when_retrieval_raises conn user_query e w _ Hret).
  eexists. split; [reflexivity|]. repeat split.
Qed.

End Pipeline.

(** * A concrete instance

    Integer vectors with a single non-zero component; between such unit
    vectors the cosine distance is one minus the dot product, and distances
    are compared as integers. *)

Module Demo.

Definition dot (a b : list Z) : Z :=
  fold_right Z.add 0%Z (map (fun p => (fst p * snd p)%Z) (combine a b)).

Definition cosine_distance (a q : list Z) : Z := (1 - dot a q)%Z.

Definition unit_vector (i : nat) : list Z :=
  repeat 0%Z i ++ 1%Z :: repeat 0%Z (VECTOR_DIMENSION - 1 - i).

(** An embedding service that sends "A", "B" and "C" to three orthogonal
    unit vectors, and every other prompt to the vector of "B". *)
Definition embed (n : nat) (model prompt : string) : @embed_reply Z :=
  if String.eqb prompt "A" then Embedding (unit_vector 0)
  else if String.eqb prompt "C" then Embedding (unit_vector 2)
  else Embedding (unit_vector 1).

(** The same service, out of order at its second request. *)
Definition embed_flaky (n : nat) (model prompt : string) : @embed_reply Z :=
  if Nat.eqb n 1 then EmbedRaise (mkExn ResponseError "model not found")
  else embed n model prompt.

(** A service whose vectors have one component only. *)
Definition embed_narrow (n : nat) (model prompt : string) : @embed_reply Z :=
  Embedding [1%Z].

Definition answer (model prompt : string) : generate_reply :=
  Stream ["Llamas "; "are calm."] None.

(** A reachable server with the extension and no table; one without the
    extension; one that refuses connections. *)
Definition fresh : @world Z := mkWorld None true None NotConnected [] [] [] [].
Definition bare : @world Z := mkWorld None false None NotConnected [] [] [] [].
Definition down : @world Z :=
  mkWorld (Some "connection refused") true None NotConnected [] [] [] [].

(** [fresh] after [setup_database], and after ingesting "A. B. C." too. *)
Definition ready : @world Z := snd (setup_database fresh).
Definition loaded : @world Z := snd (ingest_document embed Conn "A. B. C." ready).

Lemma leb_total (a b : Z) : Z.leb a b = true \/ Z.leb b a = true.
Proof. destruct (Z.leb_spec a b); [now left | right; apply Z.leb_le; lia]. Qed.

Lemma leb_trans (a b c : Z) :
  Z.leb a b = true -> Z.leb b c = true -> Z.leb a c = true.
Proof. rewrite !Z.leb_le. lia. Qed.

(** C1 as first stated fails: every embedding request succeeds, yet the
    vectors are too narrow for the column, no record is stored, and the
    document has one non-empty fragment. *)
Lemma record_count_differs_for_narrow_vectors :
  ~ (forall (ollama_embeddings : nat -> string -> string -> @embed_reply Z)
            (w0 w1 : @world Z) (conn : connection) (document : string)
            (vs : list (list Z)),
        document <> "" ->
        setup_database w0 = (Return (Some conn), w1) ->
        embedded_as ollama_embeddings (length (embed_log w1))
                    (chunk_document document) vs ->
        exists t,
          pg_documents (snd (ingest_document ollama_embeddings conn document w1))
            = Some t
          /\ length (rows t)
             = length (filter (fun fragment => PyStr.truthy (PyStr.strip fragment))
                              (PyStr.split "."%char document))).
Proof.
  intros H.
  destruct (H embed_narrow fresh ready Conn "A" [[1%Z]]) as [t [Ht Hcount]].
  - discriminate.
  - vm_compute; reflexivity.
  - repeat constructor.
  - vm_compute in Ht. injection Ht as <-. vm_compute in Hcount. discriminate.
Qed.

Lemma ingest_stores_one_record_per_fragment_witness :
  exists w2 t,
    ingest_document embed Conn "A. B. C." ready = (Return true, w2)
    /\ pg_documents w2 = Some t
    /\ map content (rows t) = ["A"; "B"; "C"]
    /\ length (rows t) = 3.
Proof.
  destruct (ingest_stores_one_record_per_fragment embed fresh ready Conn
              "A. B. C." [unit_vector 0; unit_vector 1; unit_vector 2])
    as (_ & _ & _ & _ & w2 & t & Hrun & Ht & Hcontent & _ & Hcount).
  - vm_compute; reflexivity.
  - repeat constructor.
  - repeat constructor.
  - exists w2, t. repeat split; assumption.
Defined.

Lemma ingest_aborts_at_first_embedding_failure_witness :
  exists w' t',
    ingest_document embed_flaky Conn "A. B. C." ready = (Return false, w')
    /\ embed_log w' = ["A"; "B"]
    /\ pg_documents w' = Some t'
    /\ rows t' = [mkRow 1%Z "A" (unit_vector 0)].
Proof.
  destruct (ingest_aborts_at_first_embedding_failure embed_flaky Conn "A. B. C."
              ["A"] ["C"] "B" [unit_vector 0]
              (mkExn ResponseError "model not found")
              (mkTable VECTOR_DIMENSION [] 1%Z) ready)
    as (w' & t' & Hrun & Hlog & _ & Ht & _ & Hrows & _).
  - vm_compute; reflexivity.
  - vm_compute; reflexivity.
  - vm_compute; reflexivity.
  - vm_compute; reflexivity.
  - repeat constructor.
  - repeat constructor.
  - vm_compute; reflexivity.
  - exists w', t'. repeat split; assumption.
Defined.

Lemma retrieval_returns_at_most_three_sorted_witness :
  exists w',
    retrieve_docs cosine_distance Z.leb embed Conn "Which one is B?" loaded
      = (Return ["B"; "A"; "C"], w').
Proof.
  apply (proj2 (retrieval_returns_at_most_three_sorted cosine_distance Z.leb embed
                  leb_total leb_trans Conn "Which one is B?" loaded)
               (mkTable VECTOR_DIMENSION
                        [mkRow 1%Z "A" (unit_vector 0); mkRow 2%Z "B" (unit_vector 1);
                         mkRow 3%Z "C" (unit_vector 2)] 4%Z)
               (unit_vector 1)).
  - vm_compute; reflexivity.
  - vm_compute; reflexivity.
  - vm_compute; reflexivity.
  - vm_compute; reflexivity.
  - repeat constructor.
Defined.

Lemma connection_left_open_when_extension_missing_witness :
  fst (main cosine_distance Z.leb embed answer bare) = Return tt
  /\ conn_state (snd (main cosine_distance Z.leb embed answer bare)) = Open.
Proof.
  apply (connection_left_open_when_extension_missing cosine_distance Z.leb embed
           answer bare); vm_compute; reflexivity.
Defined.

Lemma missing_extension_aborts_before_any_write_witness :
  fst (setup_database bare) = Return None
  /\ pg_log (snd (main cosine_distance Z.leb embed answer bare))
     = [SelectVectorExtension]
  /\ embed_log (snd (main cosine_distance Z.leb embed answer bare)) = []
  /\ pg_documents (snd (main cosine_distance Z.leb embed answer bare)) = None.
Proof.
  destruct (missing_extension_aborts_before_any_write cosine_distance Z.leb embed
              answer bare eq_refl eq_refl) as [Hsetup Hmain].
  rewrite Hsetup, Hmain. repeat split.
Defined.

Lemma unreachable_store_is_reported_and_untouched_witness :
  fst (setup_database down) = Return None
  /\ pg_documents (snd (main cosine_distance Z.leb embed answer down)) = None
  /\ pg_log (snd (main cosine_distance Z.leb embed answer down)) = []
  /\ conn_state (snd (main cosine_distance Z.leb embed answer down)) = NotConnected.
Proof.
  destruct (unreachable_store_is_reported_and_untouched cosine_distance Z.leb embed
              answer down "connection refused" eq_refl) as (_ & Hsetup & Hmain).
  rewrite Hsetup, Hmain. repeat split.
Defined.

Lemma three_sentence_document_retrieves_closest_witness :
  chunk_document "A. B. C." = ["A"; "B"; "C"]
  /\ exists w1 w2 w3 second third,
       setup_database fresh = (Return (Some Conn), w1)
       /\ ingest_document embed Conn "A. B. C." w1 = (Return true, w2)
       /\ pg_documents w2 =
            Some (mkTable VECTOR_DIMENSION
                          [mkRow 1%Z "A" (unit_vector 0); mkRow 2%Z "B" (unit_vector 1);
                           mkRow 3%Z "C" (unit_vector 2)] 4%Z)
       /\ retrieve_docs cosine_distance Z.leb embed Conn "Which one is B?" w2
          = (Return ["B"; second; third], w3).
Proof.
  apply (three_sentence_document_retrieves_closest cosine_distance Z.leb embed
           fresh "Which one is B?" (unit_vector 0) (unit_vector 1) (unit_vector 2)
           (unit_vector 1)).
  - vm_compute; reflexivity.
  - vm_compute; reflexivity.
  - repeat constructor.
  - vm_compute; reflexivity.
  - repeat constructor.
  - split; vm_compute; reflexivity.
  - split; vm_compute; reflexivity.
Defined.

Lemma ingest_of_blank_document_succeeds_witness :
  chunk_document " . ." = []
  /\ fst (ingest_document embed Conn " . ." ready) = Return true
  /\ embed_log (snd (ingest_document embed Conn " . ." ready)) = []
  /\ pg_log (snd (ingest_document embed Conn " . ." ready)) = pg_log ready.
Proof.
  split; [reflexivity|].
  rewrite (ingest_of_blank_document_succeeds embed Conn " . ." ready eq_refl eq_refl).
  repeat split.
Defined.

Lemma query_on_empty_table_still_answers_witness :
  fst (run_rag_query cosine_distance Z.leb embed answer Conn "Is anyone there?" ready)
  = Return (Some "Llamas are calm.")
  /\ generate_log
       (snd (run_rag_query cosine_distance Z.leb embed answer Conn
               "Is anyone there?" ready))
     = ["Based on the provided context, answer the question clearly and helpfully. Use only information from the context."
          +++ PyStr.nl +++ PyStr.nl +++ "Context: "
          +++ PyStr.nl +++ PyStr.nl +++ "Question: Is anyone there?"
          +++ PyStr.nl +++ PyStr.nl +++ "Answer:"].
Proof.
  destruct (query_on_empty_table_still_answers cosine_distance Z.leb embed answer
              Conn "Is anyone there?" (unit_vector 1) ["Llamas "; "are calm."]
              (mkTable VECTOR_DIMENSION [] 1%Z) ready)
    as (_ & _ & Hrun).
  - vm_compute; reflexivity.
  - vm_compute; reflexivity.
  - vm_compute; reflexivity.
  - vm_compute; reflexivity.
  - vm_compute; reflexivity.
  - vm_compute; reflexivity.
  - rewrite Hrun. split; vm_compute; reflexivity.
Defined.

(** ** Instances for the further properties *)

(** The service of [embed], returning a one-component vector at its second
    request; a service that is down; a generation stream that breaks after
    its first fragment. *)
Definition embed_shrinking (n : nat) (model prompt : string) : @embed_reply Z :=
  if Nat.eqb n 1 then Embedding [1%Z] else embed n model prompt.

Definition embed_down (n : nat) (model prompt : string) : @embed_reply Z :=
  EmbedRaise (mkExn RequestError "connection refused").

Definition answer_broken (model prompt : string) : generate_reply :=
  Stream ["Llamas "] (Some (mkExn ResponseError "stream closed")).

(** The table of [loaded]. *)
Definition abc_table : @table Z :=
  mkTable VECTOR_DIMENSION
          [mkRow 1%Z "A" (unit_vector 0); mkRow 2%Z "B" (unit_vector 1);
           mkRow 3%Z "C" (unit_vector 2)] 4%Z.

Lemma ready_open : conn_state ready = Open.
Proof. vm_compute; reflexivity. Qed.

Lemma ready_table : pg_documents ready = Some (mkTable VECTOR_DIMENSION [] 1%Z).
Proof. vm_compute; reflexivity. Qed.

Lemma loaded_open : conn_state loaded = Open.
Proof. vm_compute; reflexivity. Qed.

Lemma loaded_table : pg_documents loaded = Some abc_table.
Proof. vm_compute; reflexivity. Qed.

Lemma abc_widths :
  Forall (fun r : @row Z => length (embedding r) = length (unit_vector 1))
         (rows abc_table).
Proof. repeat constructor. Qed.

Lemma ingest_stores_a_prefix_of_the_chunks_witness :
  exists b k w' t' added,
    ingest_document embed_flaky Conn "A. B. C." ready = (Return b, w')
    /\ conn_state w' = Open
    /\ pg_documents w' = Some t'
    /\ rows t' = rows (mkTable VECTOR_DIMENSION [] 1%Z) ++ added
    /\ map content added = firstn k (chunk_document "A. B. C.")
    /\ k <= length (chunk_document "A. B. C.")
    /\ (b = true <-> k = length (chunk_document "A. B. C."))
    /\ embed_log w' = embed_log ready
                        ++ firstn (if b then k else S k) (chunk_document "A. B. C.")
    /\ generate_log w' = generate_log ready.
Proof.
  exact (ingest_stores_a_prefix_of_the_chunks embed_flaky Conn "A. B. C."
           (mkTable VECTOR_DIMENSION [] 1%Z) ready ready_open ready_table).
Defined.

Lemma ingest_aborts_when_vector_is_refused_witness :
  exists w' t',
    ingest_document embed_shrinking Conn "A. B. C." ready = (Return false, w')
    /\ embed_log w' = ["A"; "B"]
    /\ pg_log w' = pg_log ready
                     ++ [InsertDocument "A" (unit_vector 0); InsertDocument "B" [1%Z]]
    /\ pg_documents w' = Some t'
    /\ rows t' = [mkRow 1%Z "A" (unit_vector 0)].
Proof.
  destruct (ingest_aborts_when_vector_is_refused embed_shrinking Conn "A. B. C."
              ["A"] ["C"] "B" [unit_vector 0] [1%Z]
              (mkTable VECTOR_DIMENSION [] 1%Z) ready)
    as (w' & t' & Hrun & Hlog & Hsent & Ht & Hrows & _).
  - vm_compute; reflexivity.
  - vm_compute; reflexivity.
  - vm_compute; reflexivity.
  - vm_compute; reflexivity.
  - repeat constructor.
  - repeat constructor.
  - vm_compute; reflexivity.
  - vm_compute. discriminate.
  - exists w', t'. repeat split; assumption.
Defined.

Lemma query_answers_from_nearest_chunks_witness :
  fst (run_rag_query cosine_distance Z.leb embed answer Conn "Which one is B?" loaded)
    = Return (Some "Llamas are calm.")
  /\ generate_log
       (snd (run_rag_query cosine_distance Z.leb embed answer Conn
               "Which one is B?" loaded))
     = ["Based on the provided context, answer the question clearly and helpfully. Use only information from the context."
          +++ PyStr.nl +++ PyStr.nl +++ "Context: B A C"
          +++ PyStr.nl +++ PyStr.nl +++ "Question: Which one is B?"
          +++ PyStr.nl +++ PyStr.nl +++ "Answer:"].
Proof.
  rewrite (query_answers_from_nearest_chunks cosine_distance Z.leb embed answer
             Conn "Which one is B?" (unit_vector 1) ["Llamas "; "are calm."]
             abc_table loaded loaded_open loaded_table eq_refl eq_refl
             abc_widths eq_refl).
  split; vm_compute; reflexivity.
Defined.

Lemma query_returns_none_when_embedding_fails_witness :
  fst (run_rag_query cosine_distance Z.leb embed_down answer Conn
         "Which one is B?" loaded) = Return None
  /\ pg_log (snd (run_rag_query cosine_distance Z.leb embed_down answer Conn
                    "Which one is B?" loaded)) = pg_log loaded
  /\ generate_log (snd (run_rag_query cosine_distance Z.leb embed_down answer Conn
                          "Which one is B?" loaded)) = [].
Proof.
  rewrite (query_returns_none_when_embedding_fails cosine_distance Z.leb
             embed_down answer Conn "Which one is B?"
             (mkExn RequestError "connection refused") loaded eq_refl).
  repeat split.
Defined.

Lemma query_returns_none_when_generation_fails_witness :
  fst (run_rag_query cosine_distance Z.leb embed answer_broken Conn
         "Which one is B?" loaded) = Return None
  /\ In "Llamas "
        (stdout (snd (run_rag_query cosine_distance Z.leb embed answer_broken Conn
                        "Which one is B?" loaded))).
Proof.
  pose proof (query_returns_none_when_generation_fails cosine_distance Z.leb
                embed answer_broken Conn "Which one is B?" (unit_vector 1)
                (mkExn ResponseError "stream closed") abc_table loaded
                loaded_open loaded_table eq_refl eq_refl abc_widths) as H.
  cbv zeta in H. destruct H as [_ H].
  rewrite (H ["Llamas "] eq_refl).
  split; [reflexivity|]. cbn [snd stdout].
  apply in_or_app. right. apply in_or_app. right. right. now left.
Defined.

Lemma query_returns_none_when_vector_is_refused_witness :
  exists w',
    run_rag_query cosine_distance Z.leb embed_narrow answer Conn
      "Which one is B?" loaded = (Return None, w')
    /\ generate_log w' = generate_log loaded
    /\ pg_log w' = pg_log loaded ++ [SelectNearest [1%Z] 3]
    /\ embed_log w' = embed_log loaded ++ ["Which one is B?"]
    /\ pg_documents w' = Some abc_table
    /\ conn_state w' = Open.
Proof.
  apply (query_returns_none_when_vector_is_refused cosine_distance Z.leb
           embed_narrow answer Conn "Which one is B?" [1%Z] abc_table loaded
           loaded_open loaded_table eq_refl).
  right. constructor. vm_compute. discriminate.
Defined.

Lemma pipeline_answers_the_question_witness :
  exists w',
    run_pipeline cosine_distance Z.leb embed answer "A. B. C." "Which one is B?" fresh
      = (Return tt, w')
    /\ conn_state w' = Closed
    /\ pg_documents w' = Some abc_table
    /\ embed_log w' = ["A"; "B"; "C"; "Which one is B?"]
    /\ generate_log w'
       = ["Based on the provided context, answer the question clearly and helpfully. Use only information from the context."
            +++ PyStr.nl +++ PyStr.nl +++ "Context: B A C"
            +++ PyStr.nl +++ PyStr.nl +++ "Question: Which one is B?"
            +++ PyStr.nl +++ PyStr.nl +++ "Answer:"].
Proof.
  destruct (pipeline_answers_the_question cosine_distance Z.leb embed answer
              "A. B. C." "Which one is B?"
              [unit_vector 0; unit_vector 1; unit_vector 2] (unit_vector 1)
              ["Llamas "; "are calm."] fresh)
    as (w' & Hrun & Hc & Ht & He & Hg & _).
  - vm_compute; reflexivity.
  - vm_compute; reflexivity.
  - repeat constructor.
  - repeat constructor.
  - vm_compute; reflexivity.
  - vm_compute; reflexivity.
  - vm_compute; reflexivity.
  - exists w'. split; [exact Hrun|]. split; [exact Hc|].
    split; [exact Ht|]. split; [exact He|].
    rewrite Hg. vm_compute; reflexivity.
Defined.

Lemma pipeline_stops_after_failed_ingestion_witness :
  exists w',
    run_pipeline cosine_distance Z.leb embed_flaky answer "A. B. C."
      "Which one is B?" fresh = (Return tt, w')
    /\ conn_state w' = Closed
    /\ generate_log w' = []
    /\ embed_log w' = ["A"; "B"]
    /\ pg_documents w' =
         Some (mkTable VECTOR_DIMENSION [mkRow 1%Z "A" (unit_vector 0)] 2%Z).
Proof.
  destruct (pipeline_stops_after_failed_ingestion cosine_distance Z.leb
              embed_flaky answer "A. B. C." "Which one is B?" ["A"] ["C"] "B"
              [unit_vector 0] (mkExn ResponseError "model not found") fresh)
    as (w' & Hrun & Hc & Hg & He & _ & Ht).
  - vm_compute; reflexivity.
  - vm_compute; reflexivity.
  - vm_compute; reflexivity.
  - repeat constructor.
  - repeat constructor.
  - vm_compute; reflexivity.
  - exists w'. repeat split; assumption.
Defined.

(** [loaded] after [conn.close()]. *)
Definition hung_up : @world Z := snd (close Conn loaded).

Lemma hung_up_closed : conn_state hung_up <> Open.
Proof. vm_compute. discriminate. Qed.

Lemma ingest_raises_without_connection_witness :
  exists text w',
    ingest_document embed Conn "A. B. C." hung_up
      = (Raise (mkExn OperationalError text), w')
    /\ embed_log w' = embed_log hung_up
    /\ pg_log w' = pg_log hung_up
    /\ pg_documents w' = pg_documents hung_up.
Proof.
  exact (ingest_raises_without_connection embed Conn "A. B. C." hung_up
           hung_up_closed).
Defined.

Lemma query_returns_none_without_connection_witness :
  exists w',
    run_rag_query cosine_distance Z.leb embed answer Conn "Which one is B?" hung_up
      = (Return None, w')
    /\ embed_log w' = embed_log hung_up ++ ["Which one is B?"]
    /\ pg_log w' = pg_log hung_up
    /\ generate_log w' = generate_log hung_up.
Proof.
  exact (query_returns_none_without_connection cosine_distance Z.leb embed answer
           Conn "Which one is B?" hung_up hung_up_closed).
Defined.

Lemma query_never_raises_and_only_reads_witness :
  exists answer w',
    run_rag_query cosine_distance Z.leb embed_down answer_broken Conn
      "Which one is B?" loaded = (Return answer, w')
    /\ pg_unreachable w' = pg_unreachable loaded
    /\ pg_vector_extension w' = pg_vector_extension loaded
    /\ pg_documents w' = pg_documents loaded
    /\ conn_state w' = conn_state loaded.
Proof.
  exact (query_never_raises_and_only_reads cosine_distance Z.leb embed_down
           answer_broken Conn "Which one is B?" loaded).
Defined.

End Demo.
